(** * Daily trading records of one equity: reshaping and descriptive statistics

    A shallow embedding of the two notebooks of the repository:

    - [Notebook]: [api_data_wrangling_mini_project_public.ipynb], which reads
      every field of a row at a fixed position of [data_2017];
    - [Part000]: the second notebook, which first turns the payload into a
      dictionary [afx_dict] from column names to columns and computes the
      statistics from these columns.

    Both are straight-line scripts; every code cell is embedded as the
    function of the parsed payload that computes the values the cell prints
    (the formatting of the printed line is left out).  JSON numbers are
    embedded as exact rationals ([Qc], whose equality is Leibniz equality),
    so the rounding of binary floating point is outside the model.  A Python
    exception is an explicit [Raise] outcome. *)

From Stdlib Require Import QArith Qcanon Qcabs.
From stdpp Require Import base numbers list strings gmap sorting.

(** ** Values, exceptions and outcomes *)

(** The scalars a parsed row holds: [None], a number, or a string (the date). *)
Inductive pyval : Type :=
  | PyNone
  | PyNum (q : Qc)
  | PyStr (s : string).

Global Instance pyval_eq_dec : EqDecision pyval.
Proof. solve_decision. Defined.

(** The exceptions the notebooks can raise. *)
Inductive pyerr : Type :=
  | IndexError
  | KeyError
  | NameError
  | TypeError
  | ValueError
  | ZeroDivisionError
  | StatisticsError.

Global Instance pyerr_eq_dec : EqDecision pyerr.
Proof. solve_decision. Defined.

Inductive result (A : Type) : Type :=
  | Ok (a : A)
  | Raise (e : pyerr).
Global Arguments Ok {A} a.
Global Arguments Raise {A} e.

Global Instance result_eq_dec `{EqDecision A} : EqDecision (result A).
Proof. solve_decision. Defined.

Global Instance result_ret : MRet result := @Ok.
Global Instance result_bind : MBind result := λ A B f m,
  match m with
  | Ok a => f a
  | Raise e => Raise e
  end.

(** A literal such as [100] or [74036.0]. *)
Definition num (z : Z) : pyval := PyNum (Qc_of_Z z).

(** ** The Python operations the notebooks use *)
Module Py.

(** [v is not None] *)
Definition is_not_None (v : pyval) : bool :=
  match v with
  | PyNone => false
  | _ => true
  end.

(** [a - b]: defined on two numbers only. *)
Definition sub (a b : pyval) : result pyval :=
  match a, b with
  | PyNum x, PyNum y => Ok (PyNum (x - y)%Qc)
  | _, _ => Raise TypeError
  end.

(** [a + b]: numbers add, strings concatenate. *)
Definition add (a b : pyval) : result pyval :=
  match a, b with
  | PyNum x, PyNum y => Ok (PyNum (x + y)%Qc)
  | PyStr s, PyStr t => Ok (PyStr (s +:+ t))
  | _, _ => Raise TypeError
  end.

(** [a / b] *)
Definition truediv (a b : pyval) : result pyval :=
  match a, b with
  | PyNum x, PyNum y =>
      if decide (y = 0%Qc) then Raise ZeroDivisionError
      else Ok (PyNum (x / y)%Qc)
  | _, _ => Raise TypeError
  end.

(** [abs(a)] *)
Definition abs (a : pyval) : result pyval :=
  match a with
  | PyNum x => Ok (PyNum (Qcabs x))
  | _ => Raise TypeError
  end.

(** [a < b]: numbers by value, strings lexicographically; [None] and mixed
    operands are not ordered. *)
Definition lt (a b : pyval) : result bool :=
  match a, b with
  | PyNum x, PyNum y => Ok (bool_decide (x < y)%Qc)
  | PyStr s, PyStr t => Ok (String.ltb s t)
  | _, _ => Raise TypeError
  end.

(** [a > b] *)
Definition gt (a b : pyval) : result bool :=
  match a, b with
  | PyNum x, PyNum y => Ok (bool_decide (y < x)%Qc)
  | PyStr s, PyStr t => Ok (String.ltb t s)
  | _, _ => Raise TypeError
  end.

(** [l[i]]: a negative index counts from the end of the list. *)
Definition getitem {A} (l : list A) (i : Z) : result A :=
  let n := Z.of_nat (length l) in
  let j := if (i <? 0)%Z then (i + n)%Z else i in
  if (j <? 0)%Z then Raise IndexError
  else match l !! Z.to_nat j with
       | Some x => Ok x
       | None => Raise IndexError
       end.

(** [l[x]] for a float [x], as [n / 2 - 1] is for an integer [n]: list
    indices must be integers. *)
Definition getitem_float {A} (l : list A) (x : Qc) : result A :=
  Raise TypeError.

(** [d[k]] on a dictionary. *)
Definition dict_get {V} (d : gmap string V) (k : string) : result V :=
  match d !! k with
  | Some v => Ok v
  | None => Raise KeyError
  end.

(** [l.index(x)]: the position of the first element equal to [x]. *)
Fixpoint index `{EqDecision A} (x : A) (l : list A) : result Z :=
  match l with
  | [] => Raise ValueError
  | y :: l' =>
      if decide (y = x) then Ok 0%Z
      else i ← index x l'; Ok (Z.succ i)
  end.

(** [enumerate(l, start)]; [start] is [0] when it is not given. *)
Fixpoint enumerate {A} (l : list A) (start : Z) : list (Z * A) :=
  match l with
  | [] => []
  | v :: l' => (start, v) :: enumerate l' (Z.succ start)
  end.

(** [[elt(i) for i in l if cond(i)]]: row by row, the condition first. *)
Fixpoint comprehension {A B} (cond : A → result bool) (elt : A → result B)
    (l : list A) : result (list B) :=
  match l with
  | [] => Ok []
  | i :: l' =>
      c ← cond i;
      if c : bool then y ← elt i; ys ← comprehension cond elt l'; Ok (y :: ys)
      else comprehension cond elt l'
  end.

(** The loop of [max]: an item replaces the running maximum when it
    compares greater. *)
Fixpoint max_loop (maxitem : pyval) (l : list pyval) : result pyval :=
  match l with
  | [] => Ok maxitem
  | item :: l' =>
      c ← gt item maxitem;
      max_loop (if c : bool then item else maxitem) l'
  end.

(** [max(l)] *)
Definition max (l : list pyval) : result pyval :=
  match l with
  | [] => Raise ValueError
  | x :: l' => max_loop x l'
  end.

Fixpoint min_loop (minitem : pyval) (l : list pyval) : result pyval :=
  match l with
  | [] => Ok minitem
  | item :: l' =>
      c ← lt item minitem;
      min_loop (if c : bool then item else minitem) l'
  end.

(** [min(l)] *)
Definition min (l : list pyval) : result pyval :=
  match l with
  | [] => Raise ValueError
  | x :: l' => min_loop x l'
  end.

(** Insertion of [x] into the sorted [l], after the elements that compare
    smaller and before the others, so that [x] stays in front of its
    equals. *)
Fixpoint insert_sorted (x : pyval) (l : list pyval) : result (list pyval) :=
  match l with
  | [] => Ok [x]
  | y :: l' =>
      c ← lt y x;
      if c : bool then r ← insert_sorted x l'; Ok (y :: r)
      else Ok (x :: y :: l')
  end.

(** [sorted(l)]: ascending and stable; a comparison that is not defined
    raises. *)
Fixpoint sorted (l : list pyval) : result (list pyval) :=
  match l with
  | [] => Ok []
  | x :: l' => s ← sorted l'; insert_sorted x s
  end.

(** The exact sum of [statistics._sum]: every item must be a number. *)
Fixpoint exact_sum (l : list pyval) : result Qc :=
  match l with
  | [] => Ok 0%Qc
  | PyNum x :: l' => t ← exact_sum l'; Ok (x + t)%Qc
  | _ :: _ => Raise TypeError
  end.

(** [statistics.mean(data)] *)
Definition mean (data : list pyval) : result pyval :=
  let n := length data in
  if decide (n < 1)%nat then Raise StatisticsError
  else total ← exact_sum data; Ok (PyNum (total / Qc_of_Z (Z.of_nat n))%Qc).

(** [statistics.median(data)] *)
Definition median (data : list pyval) : result pyval :=
  data ← sorted data;
  let n := length data in
  if decide (n = 0)%nat then Raise StatisticsError
  else if decide (n mod 2 = 1)%nat then getitem data (Z.of_nat (n / 2))
  else
    let i := Z.of_nat (n / 2) in
    a ← getitem data (i - 1);
    b ← getitem data i;
    s ← add a b;
    truediv s (num 2).

End Py.

(** The line cell 5 prints: the direction and the amount shown. *)
Inductive overnight_report : Type :=
  | Increase (magnitude : pyval)
  | Decrease (magnitude : pyval).

Global Instance overnight_report_eq_dec : EqDecision overnight_report.
Proof. solve_decision. Defined.

(** ** The main notebook: fields at fixed positions of each row *)
Module Notebook.

Section Cells.
(** [data_2017 = afx_x_2017_dict['data']]: the rows as they were received. *)
Variable data_2017 : list (list pyval).

(** [opens = [i[1] for i in data_2017 if i[1] is not None]] *)
Definition opens : result (list pyval) :=
  Py.comprehension
    (λ i, x ← Py.getitem i 1; Ok (Py.is_not_None x))
    (λ i, Py.getitem i 1)
    data_2017.

(** Cell 3: [highest_open = max(opens)], [lowest_open = min(opens)]. *)
Definition highest_open : result pyval := o ← opens; Py.max o.
Definition lowest_open : result pyval := o ← opens; Py.min o.
Definition open_extrema : result (pyval * pyval) :=
  o ← opens; hi ← Py.max o; lo ← Py.min o; Ok (hi, lo).

(** Cell 4: [largest_change = max([i[2] - i[3] for i in data_2017])]. *)
Definition daily_changes : result (list pyval) :=
  Py.comprehension
    (λ _, Ok true)
    (λ i, a ← Py.getitem i 2; b ← Py.getitem i 3; Py.sub a b)
    data_2017.
Definition largest_change : result pyval := d ← daily_changes; Py.max d.

(** [closes = [i[4] for i in data_2017]] *)
Definition closes : result (list pyval) :=
  Py.comprehension (λ _, Ok true) (λ i, Py.getitem i 4) data_2017.

(** [traded_volume = [i[6] for i in data_2017 if i[6] is not None]] *)
Definition traded_volume : result (list pyval) :=
  Py.comprehension
    (λ i, x ← Py.getitem i 6; Ok (Py.is_not_None x))
    (λ i, Py.getitem i 6)
    data_2017.

(** Cell 6: [avg_volume = statistics.mean(traded_volume)]. *)
Definition avg_volume : result pyval := v ← traded_volume; Py.mean v.

(** Cell 7: [median_volume = statistics.median(traded_volume)], on the list
    cell 6 has bound to [traded_volume]; when the comprehension of cell 6
    raised, the name is not bound and cell 7 raises [NameError]. *)
Definition median_volume : result pyval :=
  match traded_volume with
  | Ok v => Py.median v
  | Raise _ => Raise NameError
  end.
End Cells.

(** [[val - closes[key-1] for key, val in enumerate(closes)
      if val is not None and closes[key-1] is not None and key > 0]]:
    [and] evaluates its operands from the left and stops at the first
    false one; at [key = 0] the index [key-1] is [-1], the last element. *)
Definition overnight_changes (closes : list pyval) : result (list pyval) :=
  Py.comprehension
    (λ '(key, val),
       if Py.is_not_None val then
         prev ← Py.getitem closes (key - 1);
         if Py.is_not_None prev then Ok (0 <? key)%Z else Ok false
       else Ok false)
    (λ '(key, val), prev ← Py.getitem closes (key - 1); Py.sub val prev)
    (Py.enumerate closes 0).

(** The direction policy of cell 5. *)
Definition overnight_direction (overnight_changes : list pyval)
    : result overnight_report :=
  pos_max_overnight ← Py.max overnight_changes;
  neg_max_overnight ← Py.min overnight_changes;
  a ← Py.abs neg_max_overnight;
  c ← Py.gt a pos_max_overnight;
  if c : bool then m ← Py.abs neg_max_overnight; Ok (Decrease m)
  else Ok (Increase pos_max_overnight).

(** Cell 5 as a whole. *)
Definition largest_overnight_change (data_2017 : list (list pyval))
    : result overnight_report :=
  c ← closes data_2017;
  d ← overnight_changes c;
  overnight_direction d.

End Notebook.

(** ** The second notebook: a dictionary of columns keyed by column name *)
Module Part000.

(** The inner loop of cell 3: [values.append(row[iname])] for every row. *)
Fixpoint inner_loop (iname : Z) (data : list (list pyval))
    (values : list pyval) : result (list pyval) :=
  match data with
  | [] => Ok values
  | row :: data' =>
      x ← Py.getitem row iname;
      inner_loop iname data' (values ++ [x])
  end.

(** The outer loop of cell 3 over [names]:
    [iname = names.index(name)], then [afx_dict[name] = values]. *)
Fixpoint outer_loop (names : list string) (data : list (list pyval))
    (todo : list string) (afx_dict : gmap string (list pyval))
    : result (gmap string (list pyval)) :=
  match todo with
  | [] => Ok afx_dict
  | name :: todo' =>
      iname ← Py.index name names;
      values ← inner_loop iname data [];
      outer_loop names data todo' (<[name:=values]> afx_dict)
  end.

(** [afx_dict] as cell 3 builds it from [column_names] and [data]. *)
Definition afx_dict (names : list string) (data : list (list pyval))
    : result (gmap string (list pyval)) :=
  outer_loop names data names ∅.

(** [[i for i in col if i is not None]] *)
Definition not_None (col : list pyval) : result (list pyval) :=
  Py.comprehension (λ i, Ok (Py.is_not_None i)) Ok col.

(** The loop of cell 5 over [afx_dict['Close'][1:]]: the predecessor of
    [item] is looked for at [closes.index(item) - 1]. *)
Fixpoint overnight_loop (closes items overnight_changes : list pyval)
    : result (list pyval) :=
  match items with
  | [] => Ok overnight_changes
  | item :: items' =>
      i ← Py.index item closes;
      prev ← Py.getitem closes (i - 1);
      d ← Py.sub item prev;
      overnight_loop closes items' (overnight_changes ++ [d])
  end.

Definition overnight_changes (closes : list pyval) : result (list pyval) :=
  overnight_loop closes (drop 1 closes) [].

(** The direction policy of cell 5: the decrease is printed as
    [neg_max_overnight] itself, the increase as [abs(pos_max_overnight)]. *)
Definition overnight_direction (overnight_changes : list pyval)
    : result overnight_report :=
  pos_max_overnight ← Py.max overnight_changes;
  neg_max_overnight ← Py.min overnight_changes;
  a ← Py.abs neg_max_overnight;
  c ← Py.gt a pos_max_overnight;
  if c : bool then Ok (Decrease neg_max_overnight)
  else m ← Py.abs pos_max_overnight; Ok (Increase m).

Section Cells.
Variable afx_dict : gmap string (list pyval).

(** Cell 3 *)
Definition highest_open : result pyval :=
  col ← Py.dict_get afx_dict "Open"; o ← not_None col; Py.max o.
Definition lowest_open : result pyval :=
  col ← Py.dict_get afx_dict "Open"; o ← not_None col; Py.min o.
Definition open_extrema : result (pyval * pyval) :=
  hi ← highest_open; lo ← lowest_open; Ok (hi, lo).

(** Cell 4:
    [daily_changes = [a - b for a, b in zip(afx_dict['High'], afx_dict['Low'])]] *)
Definition daily_changes : result (list pyval) :=
  high ← Py.dict_get afx_dict "High";
  low ← Py.dict_get afx_dict "Low";
  Py.comprehension (λ _, Ok true) (λ '(a, b), Py.sub a b) (zip high low).
Definition largest_change : result pyval := d ← daily_changes; Py.max d.

(** Cell 5 *)
Definition largest_overnight_change : result overnight_report :=
  closes ← Py.dict_get afx_dict "Close";
  d ← overnight_changes closes;
  overnight_direction d.

(** Cell 6: [avg_volume = statistics.mean(afx_dict['Traded Volume'])] *)
Definition avg_volume : result pyval :=
  col ← Py.dict_get afx_dict "Traded Volume"; Py.mean col.

(** Cell 7: for an even [median_ref] the two indices are computed with
    [/], which yields floats. *)
Definition median_volume : result pyval :=
  col ← Py.dict_get afx_dict "Traded Volume";
  let median_ref := length col in
  sorted_trade_vol ← Py.sorted col;
  if decide (median_ref mod 2 = 0)%nat then
    let median_index_1 := (Qc_of_Z (Z.of_nat median_ref) / Qc_of_Z 2 - 1)%Qc in
    let median_index_2 := (median_index_1 + 1)%Qc in
    a ← Py.getitem_float sorted_trade_vol median_index_1;
    b ← Py.getitem_float sorted_trade_vol median_index_2;
    s ← Py.add a b;
    Py.truediv s (num 2)
  else
    let median_index := Z.of_nat (median_ref / 2) in
    Py.getitem sorted_trade_vol median_index.
End Cells.

End Part000.

(** ** The data model of the specification, as a predicate on raw rows *)

(** A numeric field is a number or is absent. *)
Definition numeric_or_absent (v : pyval) : bool :=
  match v with
  | PyStr _ => false
  | _ => true
  end.

(** A [DailyRecord]: the date followed by the ten numeric fields open, high,
    low, close, change, traded volume, turnover, last price of the day,
    daily traded units and daily turnover. *)
Definition DailyRecord (row : list pyval) : bool :=
  match row with
  | PyStr _ :: fields =>
      bool_decide (length fields = 10%nat) && forallb numeric_or_absent fields
  | _ => false
  end.

(** A [RecordSeries]: every row is a [DailyRecord]. *)
Definition RecordSeries (data : list (list pyval)) : Prop :=
  Forall (λ row, DailyRecord row = true) data.

(** The numeric content of a cell, when it has one. *)
Definition as_num (v : pyval) : option Qc :=
  match v with
  | PyNum q => Some q
  | _ => None
  end.

(** The cell at position [k] of a row ([None] past its end). *)
Definition field (k : nat) (row : list pyval) : pyval :=
  default PyNone (row !! k).

(** The non-null values of the field at position [k], in series order. *)
Definition non_null (k : nat) (data : list (list pyval)) : list Qc :=
  omap (λ row, as_num (field k row)) data.

(** The close column of a series. *)
Definition close_column (data : list (list pyval)) : list pyval :=
  field 4 <$> data.

(** The deltas over positionally adjacent closes, walking the sequence with
    the previous close at hand: a pair contributes [cur - prev] when both
    are numbers and nothing otherwise. *)
Fixpoint deltas_after (prev : option pyval) (closes : list pyval) : list Qc :=
  match closes with
  | [] => []
  | cur :: closes' =>
      match prev, cur with
      | Some (PyNum p), PyNum c => [(c - p)%Qc]
      | _, _ => []
      end ++ deltas_after (Some cur) closes'
  end.

Definition adjacent_close_deltas (closes : list pyval) : list Qc :=
  deltas_after None closes.

(** The delta at position [i] of the raw sequence: [close[i] - close[i-1]]
    when [i > 0] and both closes are numbers. *)
Definition close_delta_at (closes : list pyval) (i : nat) : option Qc :=
  match i with
  | O => None
  | S j =>
      match closes !! j, closes !! i with
      | Some (PyNum p), Some (PyNum c) => Some (c - p)%Qc
      | _, _ => None
      end
  end.

(** Greatest and least element of a list of numbers. *)
Definition is_maximum (m : Qc) (l : list Qc) : Prop :=
  m ∈ l ∧ ∀ x, x ∈ l → (x ≤ m)%Qc.
Definition is_minimum (m : Qc) (l : list Qc) : Prop :=
  m ∈ l ∧ ∀ x, x ∈ l → (m ≤ x)%Qc.

(** The sum of a list of numbers. *)
Definition total (l : list Qc) : Qc := foldr Qcplus 0%Qc l.

(** The standard median of an ascending list: the middle element of an odd
    count, the average of the two middle elements of an even count. *)
Definition standard_median (s : list Qc) : Qc :=
  let n := length s in
  if Nat.odd n then default 0%Qc (s !! (n / 2))%nat
  else ((default 0%Qc (s !! (n / 2 - 1))%nat + default 0%Qc (s !! (n / 2))%nat)
        / Qc_of_Z 2)%Qc.

(** A list rearranged by the list of positions [p]: position [j] of the
    result holds the element at position [p !! j] of [l]. *)
Definition reorder {A} (p : list nat) (l : list A) : list A :=
  omap (λ i, l !! i) p.

(** A row of the 2017 payload with the given open, high, low, close and
    traded volume: the other numeric fields are absent. *)
Definition row (o h l c v : pyval) : list pyval :=
  [PyStr "2017-01-02"; o; h; l; c; PyNone; v; PyNone; PyNone; PyNone; PyNone].

(** Series that only differ in one field. *)
Definition series_of_closes (closes : list pyval) : list (list pyval) :=
  (λ c, row PyNone PyNone PyNone c PyNone) <$> closes.
Definition series_of_volumes (volumes : list pyval) : list (list pyval) :=
  (λ v, row PyNone PyNone PyNone PyNone v) <$> volumes.

(** The column names of the payload, as the notebooks print them. *)
Definition column_names : list string :=
  ["Date"; "Open"; "High"; "Low"; "Close"; "Change"; "Traded Volume";
   "Turnover"; "Last Price of the Day"; "Daily Traded Units";
   "Daily Turnover"]%string.

(** A cell that holds a number. *)
Definition is_number (v : pyval) : bool :=
  match v with
  | PyNum _ => true
  | _ => false
  end.

(** The intraday change of a record: [high - low] when both are numbers. *)
Definition intraday (row : list pyval) : option Qc :=
  match field 2 row, field 3 row with
  | PyNum h, PyNum l => Some (h - l)%Qc
  | _, _ => None
  end.

(** Two rows that hold the same cells at the positions the main notebook
    reads: 1 (open), 2 (high), 3 (low), 4 (close) and 6 (traded volume). *)
Definition same_read_positions (r r' : list pyval) : Prop :=
  ∀ k : nat, k ∈ [1; 2; 3; 4; 6]%nat → r !! k = r' !! k.

(** Position [i] is the first one of [l] that holds [x]. *)
Definition first_occurrence {A} (x : A) (l : list A) (i : nat) : Prop :=
  l !! i = Some x ∧ ∀ j : nat, (j < i)%nat → l !! j ≠ Some x.

(** Decide a closed proposition by evaluation. *)
Ltac by_evaluation :=
  match goal with
  | |- ?P => apply (bool_decide_unpack P); vm_compute; exact I
  end.

(** * Properties *)

(** ** Outcomes and indexing *)

Lemma bind_Ok {A B} (f : A → result B) (a : A) : (Ok a ≫= f) = f a.
Proof. reflexivity. Qed.

Lemma bind_Raise {A B} (f : A → result B) (e : pyerr) :
  (Raise e ≫= f) = Raise e.
Proof. reflexivity. Qed.

Lemma getitem_nat {A} (l : list A) (k : nat) :
  Py.getitem l (Z.of_nat k) =
  match l !! k with Some x => Ok x | None => Raise IndexError end.
Proof.
  unfold Py.getitem.
  destruct (Z.ltb_spec (Z.of_nat k) 0) as [?|_]; [lia|].
  destruct (Z.ltb_spec (Z.of_nat k) 0) as [?|_]; [lia|].
  by rewrite Nat2Z.id.
Qed.

Lemma getitem_lookup {A} (l : list A) (k : nat) (x : A) :
  l !! k = Some x → Py.getitem l (Z.of_nat k) = Ok x.
Proof. intros H. by rewrite getitem_nat, H. Qed.

Lemma getitem_last {A} (l : list A) (x : A) :
  Py.getitem (l ++ [x]) (-1) = Ok x.
Proof.
  unfold Py.getitem. rewrite length_app. simpl.
  replace (-1 + Z.of_nat (length l + 1))%Z with (Z.of_nat (length l)) by lia.
  destruct (Z.ltb_spec (Z.of_nat (length l)) 0) as [?|_]; [lia|].
  rewrite Nat2Z.id, lookup_app_r, Nat.sub_diag by lia. done.
Qed.

(** ** Rows of a record series *)

Lemma DailyRecord_field (row : list pyval) (k : nat) :
  DailyRecord row = true → (1 ≤ k ≤ 10)%nat →
  row !! k = Some (field k row) ∧ numeric_or_absent (field k row) = true.
Proof.
  intros Hrow Hk. unfold DailyRecord in Hrow.
  destruct row as [|[| |d] fields]; try discriminate.
  apply andb_prop in Hrow as [Hlen Hall].
  apply bool_decide_eq_true_1 in Hlen.
  destruct k as [|k]; [lia|]. unfold field. simpl.
  destruct (lookup_lt_is_Some_2 fields k) as [v Hv]; [lia|].
  rewrite Hv. split; [done|]. simpl.
  rewrite forallb_forall in Hall. apply Hall.
  apply list_elem_of_In. by eapply list_elem_of_lookup_2.
Qed.

Lemma RecordSeries_cons (row : list pyval) (data : list (list pyval)) :
  RecordSeries (row :: data) ↔ DailyRecord row = true ∧ RecordSeries data.
Proof. unfold RecordSeries. by rewrite Forall_cons. Qed.


(** A column read without a filter, and with the [is not None] filter. *)
Lemma column_comprehension (k : nat) (data : list (list pyval)) :
  RecordSeries data → (1 ≤ k ≤ 10)%nat →
  Py.comprehension (λ _, Ok true) (λ i, Py.getitem i (Z.of_nat k)) data
  = Ok (field k <$> data).
Proof.
  intros Hdata Hk. induction data as [|r data IH]; [done|].
  apply RecordSeries_cons in Hdata as [Hr Hdata].
  destruct (DailyRecord_field r k Hr Hk) as [Hl _].
  simpl. rewrite (getitem_lookup _ _ _ Hl). simpl.
  by rewrite (IH Hdata).
Qed.

Lemma filtered_column_comprehension (k : nat) (data : list (list pyval)) :
  RecordSeries data → (1 ≤ k ≤ 10)%nat →
  Py.comprehension
    (λ i, x ← Py.getitem i (Z.of_nat k); Ok (Py.is_not_None x))
    (λ i, Py.getitem i (Z.of_nat k)) data
  = Ok (PyNum <$> non_null k data).
Proof.
  intros Hdata Hk. induction data as [|r data IH]; [done|].
  apply RecordSeries_cons in Hdata as [Hr Hdata].
  destruct (DailyRecord_field r k Hr Hk) as [Hl Hty].
  unfold non_null in *. simpl.
  rewrite (getitem_lookup _ _ _ Hl). simpl.
  destruct (field k r) as [|q|s] eqn:Hf; simpl in *; try discriminate.
  - by rewrite (IH Hdata).
  - by rewrite (IH Hdata).
Qed.

(** ** [max] and [min] over numbers *)

Lemma max_loop_nums (best : Qc) (l : list Qc) :
  ∃ m, Py.max_loop (PyNum best) (PyNum <$> l) = Ok (PyNum m)
       ∧ is_maximum m (best :: l).
Proof.
  revert best. induction l as [|x l IH]; intros best.
  - exists best. split; [done|]. split; [left|].
    intros y Hy. apply list_elem_of_singleton in Hy as ->. apply Qcle_refl.
  - simpl. case_bool_decide as Hlt.
    + destruct (IH x) as (m & Hm & Hin & Hub). exists m. split; [done|]. split.
      * by right.
      * intros y Hy. apply elem_of_cons in Hy as [->|Hy]; [|by apply Hub].
        apply Qcle_trans with x; [by apply Qclt_le_weak|]. apply Hub. left.
    + destruct (IH best) as (m & Hm & Hin & Hub). exists m. split; [done|]. split.
      * apply elem_of_cons in Hin as [->|Hin]; [left|]. right. by right.
      * intros y Hy. apply elem_of_cons in Hy as [->|Hy]; [apply Hub; left|].
        apply elem_of_cons in Hy as [->|Hy]; [|apply Hub; by right].
        apply Qcle_trans with best; [by apply Qcnot_lt_le|]. apply Hub. left.
Qed.

Lemma min_loop_nums (best : Qc) (l : list Qc) :
  ∃ m, Py.min_loop (PyNum best) (PyNum <$> l) = Ok (PyNum m)
       ∧ is_minimum m (best :: l).
Proof.
  revert best. induction l as [|x l IH]; intros best.
  - exists best. split; [done|]. split; [left|].
    intros y Hy. apply list_elem_of_singleton in Hy as ->. apply Qcle_refl.
  - simpl. case_bool_decide as Hlt.
    + destruct (IH x) as (m & Hm & Hin & Hlb). exists m. split; [done|]. split.
      * by right.
      * intros y Hy. apply elem_of_cons in Hy as [->|Hy]; [|by apply Hlb].
        apply Qcle_trans with x; [|by apply Qclt_le_weak]. apply Hlb. left.
    + destruct (IH best) as (m & Hm & Hin & Hlb). exists m. split; [done|]. split.
      * apply elem_of_cons in Hin as [->|Hin]; [left|]. right. by right.
      * intros y Hy. apply elem_of_cons in Hy as [->|Hy]; [apply Hlb; left|].
        apply elem_of_cons in Hy as [->|Hy]; [|apply Hlb; by right].
        apply Qcle_trans with best; [|by apply Qcnot_lt_le]. apply Hlb. left.
Qed.

Lemma max_nums (l : list Qc) :
  l ≠ [] → ∃ m, Py.max (PyNum <$> l) = Ok (PyNum m) ∧ is_maximum m l.
Proof. destruct l as [|x l]; [done|]. intros _. apply max_loop_nums. Qed.

Lemma min_nums (l : list Qc) :
  l ≠ [] → ∃ m, Py.min (PyNum <$> l) = Ok (PyNum m) ∧ is_minimum m l.
Proof. destruct l as [|x l]; [done|]. intros _. apply min_loop_nums. Qed.





(** ** [sorted] over numbers *)

Lemma insert_sorted_nums (x : Qc) (s : list Qc) :
  ∃ s', Py.insert_sorted (PyNum x) (PyNum <$> s) = Ok (PyNum <$> s')
        ∧ s' ≡ₚ x :: s
        ∧ (Sorted Qcle s → Sorted Qcle s')
        ∧ (∀ z, HdRel Qcle z s → (z ≤ x)%Qc → HdRel Qcle z s').
Proof.
  induction s as [|y s IH].
  - exists [x]. repeat split; auto.
  - rewrite fmap_cons. cbn [Py.insert_sorted Py.lt mbind result_bind].
    case_bool_decide as Hlt.
    + destruct IH as (s' & -> & Hp & Hs & Hhd). exists (y :: s').
      split; [done|]. split; [|split].
      * rewrite Hp. apply perm_swap.
      * intros Hys. apply Sorted_inv in Hys as [Hsorted Hy].
        constructor; [by apply Hs|]. apply Hhd; [done|]. by apply Qclt_le_weak.
      * intros z Hz _. apply HdRel_inv in Hz. by constructor.
    + exists (x :: y :: s). split; [done|]. split; [done|]. split.
      * intros Hys. constructor; [done|]. constructor. by apply Qcnot_lt_le.
      * intros z _ Hz. by constructor.
Qed.

Lemma sorted_nums (l : list Qc) :
  ∃ s, Py.sorted (PyNum <$> l) = Ok (PyNum <$> s) ∧ s ≡ₚ l ∧ Sorted Qcle s.
Proof.
  induction l as [|x l IH].
  - exists []. repeat split; auto.
  - destruct IH as (s & Hs & Hp & Hsorted).
    destruct (insert_sorted_nums x s) as (s' & Hs' & Hp' & Hsorted' & _).
    exists s'. rewrite fmap_cons. cbn [Py.sorted]. rewrite Hs, bind_Ok.
    split; [done|]. split.
    + by rewrite Hp', Hp.
    + by apply Hsorted'.
Qed.

(** There is one ascending arrangement of a list of numbers. *)
Lemma ascending_unique (s s' : list Qc) :
  Sorted Qcle s → Sorted Qcle s' → s ≡ₚ s' → s = s'.
Proof. apply (Sorted_unique Qcle). Qed.

Lemma sorted_nums_merge_sort (l : list Qc) :
  Py.sorted (PyNum <$> l) = Ok (PyNum <$> merge_sort Qcle l).
Proof.
  destruct (sorted_nums l) as (s & -> & Hp & Hs). do 2 f_equal.
  apply ascending_unique; [done|apply (Sorted_merge_sort Qcle)|].
  by rewrite Hp, merge_sort_Permutation.
Qed.

(** ** The [statistics] module over numbers *)

Lemma exact_sum_nums (l : list Qc) : Py.exact_sum (PyNum <$> l) = Ok (total l).
Proof.
  induction l as [|x l IH]; [done|].
  rewrite fmap_cons. cbn [Py.exact_sum]. by rewrite IH.
Qed.


Lemma mean_nums (l : list Qc) :
  l ≠ [] →
  Py.mean (PyNum <$> l)
  = Ok (PyNum (total l / Qc_of_Z (Z.of_nat (length l)))%Qc).
Proof.
  intros Hne. unfold Py.mean. rewrite length_fmap.
  destruct l as [|x l]; [done|]. case_decide; [simpl in *; lia|].
  by rewrite exact_sum_nums.
Qed.

Lemma mean_nil : Py.mean [] = Raise StatisticsError.
Proof. done. Qed.

Lemma odd_mod_2 (n : nat) : Nat.odd n = true ↔ (n mod 2 = 1)%nat.
Proof.
  rewrite Nat.odd_spec. split.
  - intros [m ->]. by rewrite Nat.add_comm, Nat.mul_comm, Nat.Div0.mod_add.
  - intros H. exists (n / 2)%nat. rewrite <- H at 3. apply Nat.div_mod_eq.
Qed.

Lemma getitem_nums (s : list Qc) (k : nat) :
  (k < length s)%nat →
  Py.getitem (PyNum <$> s) (Z.of_nat k) = Ok (PyNum (default 0%Qc (s !! k))).
Proof.
  intros Hk. rewrite getitem_nat, list_lookup_fmap.
  destruct (lookup_lt_is_Some_2 s k Hk) as [x ->]. done.
Qed.

Lemma median_nums (l : list Qc) :
  l ≠ [] →
  Py.median (PyNum <$> l) = Ok (PyNum (standard_median (merge_sort Qcle l))).
Proof.
  intros Hne. unfold Py.median. rewrite sorted_nums_merge_sort, bind_Ok.
  cbv zeta. rewrite length_fmap.
  set (s := merge_sort Qcle l).
  assert (length s = length l) as Hlen.
  { unfold s. by rewrite merge_sort_Permutation. }
  assert (0 < length s)%nat as Hpos.
  { rewrite Hlen. destruct l; [done|simpl; lia]. }
  unfold standard_median. cbv zeta.
  case_decide; [lia|].
  pose proof (odd_mod_2 (length s)) as Hodd.
  pose proof (Nat.div_mod_eq (length s) 2) as Hdiv.
  pose proof (Nat.mod_upper_bound (length s) 2) as Hrem.
  revert Hodd Hdiv Hrem.
  generalize (length s `div` 2)%nat (length s `mod` 2)%nat.
  intros d r Hodd Hdiv Hrem.
  case_decide as Hmod.
  - rewrite (proj2 Hodd Hmod). apply getitem_nums. lia.
  - destruct (Nat.odd (length s)); [by destruct Hmod; apply Hodd|].
    replace (Z.of_nat d - 1)%Z with (Z.of_nat (d - 1)) by lia.
    rewrite !getitem_nums, !bind_Ok by lia.
    unfold num. cbn [Py.add Py.truediv mbind result_bind].
    by case_decide.
Qed.

(** ** The adjacent-close deltas of the main notebook *)

Lemma getitem_minus_1_nonempty {A} (x : A) (l : list A) :
  ∃ v, Py.getitem (x :: l) (-1) = Ok v.
Proof.
  destruct (exists_last (l := x :: l)) as (l' & v & ->); [done|].
  exists v. apply getitem_last.
Qed.

Lemma getitem_middle {A} (pre suf : list A) (p : A) :
  Py.getitem ((pre ++ [p]) ++ suf) (Z.of_nat (length (pre ++ [p])) - 1) = Ok p.
Proof.
  rewrite length_app. simpl.
  replace (Z.of_nat (length pre + 1) - 1)%Z with (Z.of_nat (length pre)) by lia.
  apply getitem_lookup. rewrite <- app_assoc.
  by rewrite lookup_app_r, Nat.sub_diag.
Qed.

Lemma notebook_overnight_from (closes pre suf : list pyval) :
  closes = pre ++ suf →
  Forall (λ v, numeric_or_absent v = true) closes →
  Py.comprehension
    (λ '(key, val),
       if Py.is_not_None val then
         prev ← Py.getitem closes (key - 1);
         if Py.is_not_None prev then Ok (0 <? key)%Z else Ok false
       else Ok false)
    (λ '(key, val), prev ← Py.getitem closes (key - 1); Py.sub val prev)
    (Py.enumerate suf (Z.of_nat (length pre)))
  = Ok (PyNum <$> deltas_after (last pre) suf).
Proof.
  revert pre. induction suf as [|cur suf IH]; intros pre Hcl Hty; [done|].
  assert (numeric_or_absent cur = true) as Hcur.
  { subst closes. apply Forall_app in Hty as [_ Hty].
    by apply Forall_cons in Hty as [? _]. }
  specialize (IH (pre ++ [cur])).
  rewrite last_snoc, length_app, Nat2Z.inj_add in IH. simpl in IH.
  rewrite Z.add_1_r in IH.
  rewrite <- app_assoc in IH. specialize (IH Hcl Hty).
  cbn [Py.enumerate Py.comprehension deltas_after].
  match type of IH with ?lhs = _ => remember lhs as rest eqn:Hrest end.
  clear Hrest. subst rest.
  destruct cur as [|c|s]; [| |done].
  - cbn [Py.is_not_None mbind result_bind].
    by destruct (last pre) as [[| |]|].
  - cbn [Py.is_not_None].
    destruct pre as [|p0 pre0 _] using rev_ind.
    + simpl in Hcl. change (Z.of_nat (length []) - 1)%Z with (-1)%Z.
      destruct (getitem_minus_1_nonempty (PyNum c) suf) as [v Hv].
      rewrite <- Hcl in Hv. rewrite Hv. cbn [mbind result_bind last].
      by destruct (Py.is_not_None v).
    + rewrite last_snoc. rewrite Hcl.
      rewrite (getitem_middle pre0 (PyNum c :: suf) p0).
      cbn [mbind result_bind].
      assert (numeric_or_absent p0 = true) as Hp0.
      { subst closes. apply Forall_app in Hty as [Hty _].
        apply Forall_app in Hty as [_ Hty]. by apply Forall_cons in Hty as [? _]. }
      destruct p0 as [|p|s]; [| |done]; cbn [Py.is_not_None]; [done|].
      destruct (Z.ltb_spec 0 (Z.of_nat (length (pre0 ++ [PyNum p])))) as [_|Hle].
      2:{ rewrite length_app in Hle. simpl in Hle. lia. }
      done.
Qed.

Lemma notebook_overnight_changes (closes : list pyval) :
  Forall (λ v, numeric_or_absent v = true) closes →
  Notebook.overnight_changes closes = Ok (PyNum <$> adjacent_close_deltas closes).
Proof.
  intros Hty. apply (notebook_overnight_from closes [] closes); done.
Qed.

Lemma deltas_after_absent (closes : list pyval) :
  deltas_after (Some PyNone) closes = deltas_after None closes.
Proof. by destruct closes. Qed.

Lemma deltas_after_app_absent (prev : option pyval) (l1 l2 : list pyval) :
  deltas_after prev (l1 ++ PyNone :: l2)
  = deltas_after prev l1 ++ deltas_after None l2.
Proof.
  revert prev. induction l1 as [|x l1 IH]; intros prev.
  - simpl. rewrite deltas_after_absent. by destruct prev as [[| |]|].
  - simpl. by rewrite IH, app_assoc.
Qed.

Lemma deltas_after_positions (pre suf : list pyval) :
  deltas_after (last pre) suf
  = omap (close_delta_at (pre ++ suf)) (seq (length pre) (length suf)).
Proof.
  revert pre. induction suf as [|cur suf IH]; intros pre; [done|].
  specialize (IH (pre ++ [cur])).
  rewrite last_snoc, length_app, <- app_assoc, Nat.add_1_r in IH.
  cbn [deltas_after length seq omap]. rewrite IH. clear IH. simpl.
  destruct pre as [|p pre _] using rev_ind.
  - done.
  - rewrite last_snoc, length_app, Nat.add_1_r. cbn [close_delta_at].
    rewrite <- app_assoc. simpl.
    rewrite (lookup_app_r pre), Nat.sub_diag by lia. simpl.
    rewrite (lookup_app_r pre) by lia.
    replace (S (length pre) - length pre)%nat with 1%nat by lia. simpl.
    by destruct p as [|p|s], cur as [|c|s'].
Qed.

Lemma adjacent_close_deltas_positions (closes : list pyval) :
  adjacent_close_deltas closes
  = omap (close_delta_at closes) (seq 0 (length closes)).
Proof. apply (deltas_after_positions [] closes). Qed.

Lemma numeric_or_absent_app (l1 l2 : list pyval) :
  Forall (λ v, numeric_or_absent v = true) (l1 ++ PyNone :: l2) →
  Forall (λ v, numeric_or_absent v = true) l1
  ∧ Forall (λ v, numeric_or_absent v = true) l2.
Proof.
  intros H. apply Forall_app in H as [H1 H2].
  by apply Forall_cons in H2 as [_ H2].
Qed.

(** ** Columns of a record series in the main notebook *)

Lemma close_column_typed (data : list (list pyval)) :
  RecordSeries data →
  Forall (λ v, numeric_or_absent v = true) (close_column data).
Proof.
  intros Hdata. unfold close_column. apply Forall_fmap.
  eapply Forall_impl; [exact Hdata|]. intros r Hr. simpl.
  by destruct (DailyRecord_field r 4 Hr) as [_ ?]; [lia|].
Qed.

Lemma notebook_closes (data : list (list pyval)) :
  RecordSeries data → Notebook.closes data = Ok (close_column data).
Proof. intros Hdata. apply (column_comprehension 4); [done|lia]. Qed.

Lemma notebook_opens (data : list (list pyval)) :
  RecordSeries data → Notebook.opens data = Ok (PyNum <$> non_null 1 data).
Proof. intros Hdata. apply (filtered_column_comprehension 1); [done|lia]. Qed.

Lemma notebook_traded_volume (data : list (list pyval)) :
  RecordSeries data →
  Notebook.traded_volume data = Ok (PyNum <$> non_null 6 data).
Proof. intros Hdata. apply (filtered_column_comprehension 6); [done|lia]. Qed.

(** ** The direction policy over numbers *)

Lemma notebook_direction_nums (deltas : list Qc) :
  deltas ≠ [] →
  ∃ pos_max neg_max,
    is_maximum pos_max deltas ∧ is_minimum neg_max deltas ∧
    Notebook.overnight_direction (PyNum <$> deltas)
    = Ok (if bool_decide (pos_max < Qcabs neg_max)%Qc
          then Decrease (PyNum (Qcabs neg_max))
          else Increase (PyNum pos_max)).
Proof.
  intros Hne.
  destruct (max_nums deltas Hne) as (pos & Hpos & Hmax).
  destruct (min_nums deltas Hne) as (neg & Hneg & Hmin).
  exists pos, neg. split; [done|]. split; [done|].
  unfold Notebook.overnight_direction. rewrite Hpos, Hneg.
  cbn [mbind result_bind Py.abs Py.gt]. by case_bool_decide.
Qed.

(** ** Cell 4 of the main notebook on a record series *)

Lemma sub_fields_intraday (r : list pyval) :
  numeric_or_absent (field 2 r) = true →
  numeric_or_absent (field 3 r) = true →
  Py.sub (field 2 r) (field 3 r)
  = match intraday r with
    | Some d => Ok (PyNum d)
    | None => Raise TypeError
    end.
Proof.
  unfold intraday. by destruct (field 2 r) as [|h|?], (field 3 r) as [|l|?].
Qed.

Lemma notebook_daily_changes (data : list (list pyval)) :
  RecordSeries data →
  Notebook.daily_changes data
  = if bool_decide (Forall (λ row, is_Some (intraday row)) data)
    then Ok (PyNum <$> omap intraday data)
    else Raise TypeError.
Proof.
  intros Hdata. unfold Notebook.daily_changes.
  induction data as [|r data IH]; [done|].
  apply RecordSeries_cons in Hdata as [Hr Hdata]. specialize (IH Hdata).
  destruct (DailyRecord_field r 2 Hr) as [H2 T2]; [lia|].
  destruct (DailyRecord_field r 3 Hr) as [H3 T3]; [lia|].
  cbn [Py.comprehension mbind result_bind].
  rewrite (getitem_lookup r 2 _ H2 : Py.getitem r 2 = _).
  rewrite (getitem_lookup r 3 _ H3 : Py.getitem r 3 = _).
  cbn [mbind result_bind]. rewrite IH, (sub_fields_intraday r T2 T3). clear IH.
  cbn [omap list_omap].
  destruct (intraday r) as [d|] eqn:E; cbn [mbind result_bind].
  - case_bool_decide as Hall.
    + rewrite bool_decide_eq_true_2; [done|]. constructor; [|done].
      rewrite E. by eexists.
    + rewrite bool_decide_eq_false_2; [done|].
      intros Hall'. by apply Forall_cons in Hall' as [_ ?].
  - rewrite bool_decide_eq_false_2; [done|].
    intros Hall. apply Forall_cons in Hall as [[? Hs] _]. congruence.
Qed.

(** ** The largest overnight change (cell 5 of the main notebook) *)

Lemma adjacent_pair_deltas (closes : list pyval) (i : nat) (p c : Qc) :
  closes !! i = Some (PyNum p) → closes !! S i = Some (PyNum c) →
  adjacent_close_deltas closes ≠ [].
Proof.
  intros Hp Hc Hnil.
  assert ((c - p)%Qc ∈ adjacent_close_deltas closes) as Hin.
  { rewrite adjacent_close_deltas_positions. apply list_elem_of_omap.
    exists (S i). split.
    - apply elem_of_seq. apply lookup_lt_Some in Hc. lia.
    - cbn [close_delta_at]. by rewrite Hp, Hc. }
  rewrite Hnil in Hin. by apply not_elem_of_nil in Hin.
Qed.

Lemma notebook_largest_overnight_change (data : list (list pyval)) :
  RecordSeries data →
  Notebook.largest_overnight_change data
  = Notebook.overnight_direction
      (PyNum <$> adjacent_close_deltas (close_column data)).
Proof.
  intros Hdata. unfold Notebook.largest_overnight_change.
  rewrite (notebook_closes data Hdata), bind_Ok.
  by rewrite (notebook_overnight_changes _ (close_column_typed data Hdata)).
Qed.

(** The direction policy of cell 5 of the main notebook: [pos_max] is the
    greatest and [neg_max] the least adjacent close delta; a decrease of
    [abs(neg_max)] is reported when [abs(neg_max) > pos_max], an increase of
    [pos_max] otherwise, so a tie is an increase and a reported decrease is
    never negative. *)
Lemma notebook_direction_policy :
  (∀ (data : list (list pyval)) (i : nat) (p c : Qc),
     RecordSeries data →
     close_column data !! i = Some (PyNum p) →
     close_column data !! S i = Some (PyNum c) →
     ∃ pos_max neg_max : Qc,
       is_maximum pos_max (adjacent_close_deltas (close_column data)) ∧
       is_minimum neg_max (adjacent_close_deltas (close_column data)) ∧
       Notebook.largest_overnight_change data
       = Ok (if bool_decide (pos_max < Qcabs neg_max)%Qc
             then Decrease (PyNum (Qcabs neg_max))
             else Increase (PyNum pos_max)) ∧
       (Qcabs neg_max = pos_max →
        Notebook.largest_overnight_change data = Ok (Increase (PyNum pos_max))) ∧
       (0 ≤ Qcabs neg_max)%Qc)
  ∧ Notebook.largest_overnight_change
      (series_of_closes [num 100; num 102; num 100])
    = Ok (Increase (num 2)).
Proof.
  split; [|by_evaluation].
  intros data i p c Hdata Hp Hc.
  pose proof (adjacent_pair_deltas _ i p c Hp Hc) as Hne.
  destruct (notebook_direction_nums _ Hne) as (pos & neg & Hmax & Hmin & Hdir).
  exists pos, neg. rewrite (notebook_largest_overnight_change data Hdata), Hdir.
  repeat split; try apply Hmax; try apply Hmin.
  - intros Htie. rewrite bool_decide_eq_false_2; [done|].
    rewrite Htie. apply (irreflexivity Qclt).
  - apply Qcabs_nonneg.
Qed.

(** Adjacency in the main notebook is positional in the raw sequence of
    closes: the deltas of cell 5 are exactly the [close[i] - close[i-1]] over
    the positions [i > 0] at which both closes are non-null, in order; a null
    close splits the sequence, and the deltas are those of the part before it
    followed by those of the part after it, with no pair across it. *)
Lemma notebook_adjacency_is_positional (data : list (list pyval)) :
  RecordSeries data →
  Notebook.closes data = Ok (close_column data) ∧
  Notebook.overnight_changes (close_column data)
  = Ok (PyNum <$> omap (close_delta_at (close_column data))
                       (seq 0 (length data))) ∧
  ∀ before after : list pyval,
    close_column data = before ++ PyNone :: after →
    ∃ d1 d2,
      Notebook.overnight_changes before = Ok d1 ∧
      Notebook.overnight_changes after = Ok d2 ∧
      Notebook.overnight_changes (close_column data) = Ok (d1 ++ d2).
Proof.
  intros Hdata. pose proof (close_column_typed data Hdata) as Hty.
  split; [by apply notebook_closes|]. split.
  - rewrite (notebook_overnight_changes _ Hty).
    rewrite adjacent_close_deltas_positions.
    pose proof (length_fmap (field 4) data) as Hlen.
    fold (close_column data) in Hlen. by rewrite Hlen.
  - intros before after Heq. rewrite Heq in Hty |- *.
    destruct (numeric_or_absent_app _ _ Hty) as [Hb Ha].
    rewrite !notebook_overnight_changes by done.
    eexists _, _. split; [done|]. split; [done|].
    unfold adjacent_close_deltas.
    by rewrite deltas_after_app_absent, fmap_app.
Qed.

(** ** Mean and median of the traded volume (cells 6 and 7) *)

Lemma notebook_avg_volume (data : list (list pyval)) :
  RecordSeries data →
  Notebook.avg_volume data = Py.mean (PyNum <$> non_null 6 data).
Proof.
  intros Hdata. unfold Notebook.avg_volume.
  by rewrite (notebook_traded_volume data Hdata).
Qed.

Lemma notebook_median_volume (data : list (list pyval)) :
  RecordSeries data →
  Notebook.median_volume data = Py.median (PyNum <$> non_null 6 data).
Proof.
  intros Hdata. unfold Notebook.median_volume.
  by rewrite (notebook_traded_volume data Hdata).
Qed.

(** Cell 7 of the main notebook returns the standard median of the
    non-null traded volumes: with these sorted ascending, the middle element
    of an odd count and the average of the two middle elements of an even
    count. *)
Lemma notebook_median_is_standard_median :
  (∀ data : list (list pyval),
     RecordSeries data →
     non_null 6 data ≠ [] →
     ∃ s : list Qc,
       s ≡ₚ non_null 6 data ∧ Sorted Qcle s ∧
       Notebook.median_volume data = Ok (PyNum (standard_median s)))
  ∧ Notebook.median_volume (series_of_volumes [num 10; num 20; num 30])
    = Ok (num 20)
  ∧ Notebook.median_volume (series_of_volumes [num 10; num 20; num 30; num 40])
    = Ok (num 25).
Proof.
  split; [|split; by_evaluation].
  intros data Hdata Hne. exists (merge_sort Qcle (non_null 6 data)).
  split; [apply merge_sort_Permutation|].
  split; [apply (Sorted_merge_sort Qcle)|].
  rewrite (notebook_median_volume data Hdata). by apply median_nums.
Qed.

(** Cell 6 of the main notebook returns the arithmetic mean of exactly the
    non-null traded volumes: their sum divided by their count. *)
Lemma notebook_avg_excludes_nulls :
  (∀ data : list (list pyval),
     RecordSeries data →
     non_null 6 data ≠ [] →
     Notebook.avg_volume data
     = Ok (PyNum (total (non_null 6 data)
                  / Qc_of_Z (Z.of_nat (length (non_null 6 data))))%Qc))
  ∧ Notebook.avg_volume (series_of_volumes [num 100; PyNone; num 300])
    = Ok (num 200).
Proof.
  split; [|by_evaluation].
  intros data Hdata Hne.
  rewrite (notebook_avg_volume data Hdata). by apply mean_nums.
Qed.

(** ** The largest intraday change (cell 4) *)

Lemma intraday_absent (r : list pyval) :
  field 2 r = PyNone ∨ field 3 r = PyNone → intraday r = None.
Proof.
  unfold intraday. intros [-> | ->]; [done|]. by destruct (field 2 r).
Qed.

(** C3: cell 4 has no null filter: as soon as one record of the series lacks
    its high or its low, [None - x] raises and cell 4 fails, instead of
    leaving that record out and returning the greatest [high - low] of the
    others. *)
Theorem largest_change_raises_on_null (data : list (list pyval)) :
  RecordSeries data →
  Exists (λ row, field 2 row = PyNone ∨ field 3 row = PyNone) data →
  Notebook.largest_change data = Raise TypeError.
Proof.
  intros Hdata Hex. unfold Notebook.largest_change.
  rewrite (notebook_daily_changes data Hdata).
  rewrite bool_decide_eq_false_2; [done|]. intros Hall.
  apply Exists_exists in Hex as (r & Hr & Hnone).
  rewrite Forall_forall in Hall. destruct (Hall r Hr) as [d Hd].
  by rewrite (intraday_absent r Hnone) in Hd.
Qed.

Lemma largest_change_raises_on_null_witness :
  Notebook.largest_change
    [row (num 1) (num 3) (num 1) (num 2) (num 10);
     row (num 2) PyNone PyNone (num 2) (num 10)]
  = Raise TypeError.
Proof.
  apply largest_change_raises_on_null.
  - repeat constructor.
  - right. left. by left.
Defined.

(** On a series in which every record has its high and its low, cell 4
    returns the greatest [high - low]. *)
Lemma largest_change_complete (data : list (list pyval)) :
  RecordSeries data →
  Forall (λ row, is_Some (intraday row)) data →
  data ≠ [] →
  ∃ m, Notebook.largest_change data = Ok (PyNum m)
       ∧ is_maximum m (omap intraday data).
Proof.
  intros Hdata Hall Hne. unfold Notebook.largest_change.
  rewrite (notebook_daily_changes data Hdata).
  rewrite bool_decide_eq_true_2, bind_Ok by done.
  apply max_nums. destruct data as [|r data]; [done|].
  apply Forall_cons in Hall as [[d Hd] _]. simpl. by rewrite Hd.
Qed.

(** ** Empty input *)

Lemma notebook_open_extrema (data : list (list pyval)) :
  RecordSeries data →
  Notebook.open_extrema data
  = (hi ← Py.max (PyNum <$> non_null 1 data);
     lo ← Py.min (PyNum <$> non_null 1 data);
     Ok (hi, lo)).
Proof.
  intros Hdata. unfold Notebook.open_extrema.
  by rewrite (notebook_opens data Hdata).
Qed.

(** C7: with the errors [max() arg is an empty sequence] ([ValueError]) and
    [StatisticsError] as the empty-series errors, the open extrema, the
    largest overnight change, the mean and the median volume fail with one
    exactly when no usable value is left after their null filter, and return
    a value otherwise. Cell 4 does not: on a series whose only record lacks
    high and low, no usable value is left and it raises [TypeError]. *)
Theorem empty_series_errors_but_intraday :
  (∀ data : list (list pyval),
     RecordSeries data →
     (non_null 1 data = [] → Notebook.open_extrema data = Raise ValueError) ∧
     (non_null 1 data ≠ [] →
      ∃ hi lo, Notebook.open_extrema data = Ok (PyNum hi, PyNum lo)) ∧
     (adjacent_close_deltas (close_column data) = [] →
      Notebook.largest_overnight_change data = Raise ValueError) ∧
     (adjacent_close_deltas (close_column data) ≠ [] →
      ∃ r, Notebook.largest_overnight_change data = Ok r) ∧
     (non_null 6 data = [] → Notebook.avg_volume data = Raise StatisticsError) ∧
     (non_null 6 data ≠ [] → ∃ m, Notebook.avg_volume data = Ok (PyNum m)) ∧
     (non_null 6 data = [] →
      Notebook.median_volume data = Raise StatisticsError) ∧
     (non_null 6 data ≠ [] → ∃ m, Notebook.median_volume data = Ok (PyNum m)))
  ∧ RecordSeries [row (num 1) PyNone PyNone (num 1) (num 1)]
  ∧ omap intraday [row (num 1) PyNone PyNone (num 1) (num 1)] = []
  ∧ Notebook.largest_change [row (num 1) PyNone PyNone (num 1) (num 1)]
    = Raise TypeError.
Proof.
  split; [|split; [repeat constructor|split; reflexivity]].
  intros data Hdata.
  rewrite (notebook_open_extrema data Hdata).
  rewrite (notebook_largest_overnight_change data Hdata).
  rewrite (notebook_avg_volume data Hdata), (notebook_median_volume data Hdata).
  repeat split.
  - by intros ->.
  - intros Hne. destruct (max_nums _ Hne) as (hi & -> & _).
    destruct (min_nums _ Hne) as (lo & -> & _). by exists hi, lo.
  - by intros ->.
  - intros Hne.
    destruct (notebook_direction_nums _ Hne) as (? & ? & _ & _ & ->). by eexists.
  - by intros ->.
  - intros Hne. rewrite (mean_nums _ Hne). by eexists.
  - by intros ->.
  - intros Hne. rewrite (median_nums _ Hne). by eexists.
Qed.

Lemma empty_series_errors_but_intraday_witness :
  RecordSeries (series_of_volumes [PyNone; PyNone]) ∧
  Notebook.open_extrema (series_of_volumes [PyNone; PyNone]) = Raise ValueError.
Proof.
  split; [repeat constructor|].
  apply (proj1 empty_series_errors_but_intraday
           (series_of_volumes [PyNone; PyNone])).
  - repeat constructor.
  - reflexivity.
Defined.

(** ** Reordering the records *)






(** ** The two versions of the adjacent-close deltas *)

Lemma index_NoDup `{EqDecision A} (l : list A) (k : nat) (x : A) :
  NoDup l → l !! k = Some x → Py.index x l = Ok (Z.of_nat k).
Proof.
  revert k. induction l as [|y l IH]; intros k Hnd Hk; [done|].
  apply NoDup_cons in Hnd as [Hy Hnd]. cbn [Py.index].
  destruct k as [|k]; simpl in Hk.
  - injection Hk as ->. by rewrite decide_True.
  - rewrite decide_False.
    + rewrite (IH k Hnd Hk), bind_Ok. f_equal. lia.
    + intros ->. apply Hy. by eapply list_elem_of_lookup_2.
Qed.

Lemma is_number_numeric (closes : list pyval) :
  Forall (λ v, is_number v = true) closes →
  Forall (λ v, numeric_or_absent v = true) closes.
Proof. intros H. eapply Forall_impl; [exact H|]. by intros [| |]. Qed.

Lemma part000_overnight_from (closes pre suf acc : list pyval) (p : pyval) :
  closes = (pre ++ [p]) ++ suf →
  NoDup closes →
  Forall (λ v, is_number v = true) closes →
  Part000.overnight_loop closes suf acc
  = Ok (acc ++ (PyNum <$> deltas_after (Some p) suf)).
Proof.
  revert pre p acc. induction suf as [|cur suf IH]; intros pre p acc Hcl Hnd Hty.
  - simpl. by rewrite app_nil_r.
  - assert (is_number p = true ∧ is_number cur = true) as [Hp Hcur].
    { subst closes. apply Forall_app in Hty as [Hty1 Hty2].
      apply Forall_app in Hty1 as [_ Hty1].
      apply Forall_cons in Hty1 as [? _]. by apply Forall_cons in Hty2 as [? _]. }
    assert (closes !! length (pre ++ [p]) = Some cur) as Hk.
    { subst closes. by rewrite lookup_app_r, Nat.sub_diag. }
    cbn [Part000.overnight_loop].
    rewrite (index_NoDup closes _ cur Hnd Hk), bind_Ok.
    rewrite Hcl at 1. rewrite getitem_middle, bind_Ok.
    destruct p as [|p|?], cur as [|c|?]; try discriminate.
    cbn [Py.sub mbind result_bind].
    rewrite (IH (pre ++ [PyNum p]) (PyNum c)); [|by rewrite <- app_assoc|done..].
    cbn [deltas_after]. by rewrite fmap_app, app_assoc.
Qed.

Lemma part000_overnight_changes (closes : list pyval) :
  NoDup closes →
  Forall (λ v, is_number v = true) closes →
  Part000.overnight_changes closes = Ok (PyNum <$> adjacent_close_deltas closes).
Proof.
  intros Hnd Hty. destruct closes as [|x rest]; [done|].
  change (Part000.overnight_changes (x :: rest))
    with (Part000.overnight_loop (x :: rest) rest []).
  rewrite (part000_overnight_from (x :: rest) [] rest [] x); [|done..].
  unfold adjacent_close_deltas. cbn [deltas_after]. by destruct x.
Qed.

Lemma index_elem_of `{EqDecision A} (x : A) (l : list A) :
  x ∈ l → ∃ i : nat, Py.index x l = Ok (Z.of_nat i) ∧ (i < length l)%nat.
Proof.
  induction l as [|y l IH]; intros Hin; [by apply not_elem_of_nil in Hin|].
  cbn [Py.index]. destruct (decide (y = x)) as [->|Hne].
  - exists 0%nat. split; [done|simpl; lia].
  - apply elem_of_cons in Hin as [->|Hin]; [done|].
    destruct (IH Hin) as (i & -> & Hi). exists (S i).
    split; [rewrite bind_Ok; f_equal; lia|simpl; lia].
Qed.

Lemma getitem_before {A} (l : list A) (i : nat) :
  (i < length l)%nat → ∃ v, Py.getitem l (Z.of_nat i - 1) = Ok v.
Proof.
  intros Hi. destruct i as [|j].
  - destruct l as [|x l]; [simpl in Hi; lia|].
    apply getitem_minus_1_nonempty.
  - replace (Z.of_nat (S j) - 1)%Z with (Z.of_nat j) by lia.
    destruct (lookup_lt_is_Some_2 l j) as [v Hv]; [lia|].
    exists v. by apply getitem_lookup.
Qed.

Lemma sub_raises (a b : pyval) :
  (∃ v, Py.sub a b = Ok v ∧ a ≠ PyNone ∧ b ≠ PyNone)
  ∨ Py.sub a b = Raise TypeError.
Proof. destruct a, b; simpl; eauto. Qed.

Lemma part000_overnight_loop_null (closes items acc : list pyval) :
  items ⊆ closes → PyNone ∈ items →
  Part000.overnight_loop closes items acc = Raise TypeError.
Proof.
  revert acc. induction items as [|item items IH]; intros acc Hsub Hnull.
  - by apply not_elem_of_nil in Hnull.
  - cbn [Part000.overnight_loop].
    destruct (index_elem_of item closes) as (i & -> & Hi); [apply Hsub; left|].
    rewrite bind_Ok.
    destruct (getitem_before closes i Hi) as (prev & ->). rewrite bind_Ok.
    destruct (sub_raises item prev) as [(v & -> & Hitem & _)| ->]; [|done].
    rewrite bind_Ok. apply IH.
    + intros x Hx. apply Hsub. by right.
    + by apply elem_of_cons in Hnull as [?|?].
Qed.

Lemma part000_overnight_changes_null (closes : list pyval) :
  PyNone ∈ closes → (2 ≤ length closes)%nat →
  Part000.overnight_changes closes = Raise TypeError.
Proof.
  intros Hnull Hlen. destruct closes as [|x [|y rest]]; try (simpl in Hlen; lia).
  change (Part000.overnight_changes (x :: y :: rest))
    with (Part000.overnight_loop (x :: y :: rest) (y :: rest) []).
  apply elem_of_cons in Hnull as [<-|Hnull].
  - destruct (decide (PyNone ∈ y :: rest)) as [Hin|Hnot].
    + apply part000_overnight_loop_null; [|done]. intros v Hv. by right.
    + assert (y ≠ PyNone) as Hy by (intros ->; apply Hnot; left).
      cbn [Part000.overnight_loop Py.index].
      rewrite decide_False, decide_True by done.
      by destruct y.
  - apply part000_overnight_loop_null; [|done]. intros v Hv. by right.
Qed.

(** C10, amended: on a series whose closes are all numbers and pairwise
    distinct, the loop of the second notebook, which looks the predecessor
    of a close up at [closes.index(item) - 1], yields the same deltas as the
    positional comprehension of the main notebook; on some series of
    numbers with a repeated close the two differ; and on every series of at
    least two closes one of which is null, the second notebook raises while
    the main notebook returns the deltas of the pairs without a null. *)
Theorem overnight_changes_agree_on_distinct_numbers :
  (∀ closes : list pyval,
     Forall (λ v, is_number v = true) closes →
     NoDup closes →
     Part000.overnight_changes closes = Notebook.overnight_changes closes)
  ∧ (∃ closes : list pyval,
       Forall (λ v, is_number v = true) closes ∧
       ¬ NoDup closes ∧
       Part000.overnight_changes closes ≠ Notebook.overnight_changes closes)
  ∧ (∀ closes : list pyval,
       Forall (λ v, numeric_or_absent v = true) closes →
       PyNone ∈ closes → (2 ≤ length closes)%nat →
       Part000.overnight_changes closes = Raise TypeError ∧
       Notebook.overnight_changes closes
       = Ok (PyNum <$> adjacent_close_deltas closes)).
Proof.
  split; [|split].
  - intros closes Hty Hnd.
    rewrite (part000_overnight_changes closes Hnd Hty).
    by rewrite (notebook_overnight_changes closes (is_number_numeric _ Hty)).
  - exists [num 5; num 1; num 2; num 1]. split; [repeat constructor|].
    split; by_evaluation.
  - intros closes Hty Hnull Hlen.
    split; [by apply part000_overnight_changes_null|].
    by apply notebook_overnight_changes.
Qed.

Lemma overnight_changes_agree_on_distinct_numbers_witness :
  Part000.overnight_changes [num 100; num 102; num 99]
  = Notebook.overnight_changes [num 100; num 102; num 99].
Proof.
  apply (proj1 overnight_changes_agree_on_distinct_numbers).
  - repeat constructor.
  - by_evaluation.
Defined.

(** The counterexample to C10 as stated: the non-null closes of
    [1, None] are pairwise distinct, the second notebook raises on
    [None - 1], the main notebook skips the pair and yields no delta. *)
Lemma overnight_changes_differ_on_null :
  Forall (λ v, numeric_or_absent v = true) [num 1; PyNone] ∧
  NoDup (omap as_num [num 1; PyNone]) ∧
  Part000.overnight_changes [num 1; PyNone] = Raise TypeError ∧
  Notebook.overnight_changes [num 1; PyNone] = Ok [].
Proof.
  split; [repeat constructor|]. split; [by_evaluation|].
  split; reflexivity.
Qed.

(** ** The dictionary of columns of the second notebook *)

Lemma inner_loop_columns (i : nat) (data : list (list pyval))
    (values : list pyval) :
  Part000.inner_loop (Z.of_nat i) data values
  = if bool_decide (Forall (λ row, i < length row)%nat data)
    then Ok (values ++ (field i <$> data))
    else Raise IndexError.
Proof.
  revert values. induction data as [|r data IH]; intros values.
  - simpl. by rewrite app_nil_r.
  - cbn [Part000.inner_loop]. rewrite getitem_nat.
    destruct (r !! i) as [x|] eqn:Hx.
    + apply lookup_lt_Some in Hx as Hlt. rewrite bind_Ok, IH.
      case_bool_decide as Hall.
      * rewrite bool_decide_eq_true_2 by (by constructor).
        rewrite fmap_cons.
        replace (field i r) with x by (unfold field; by rewrite Hx).
        by rewrite <- app_assoc.
      * rewrite bool_decide_eq_false_2; [done|].
        intros Hall'. by apply Forall_cons in Hall' as [_ ?].
    + apply lookup_ge_None in Hx. rewrite bool_decide_eq_false_2; [done|].
      intros Hall. apply Forall_cons in Hall as [? _]. lia.
Qed.

Lemma outer_loop_columns (names todo : list string)
    (data : list (list pyval)) (acc : gmap string (list pyval)) :
  NoDup names → todo ⊆ names →
  Forall (λ row, length names ≤ length row)%nat data →
  ∃ d, Part000.outer_loop names data todo acc = Ok d
       ∧ (∀ i name, names !! i = Some name → name ∈ todo →
                    d !! name = Some (field i <$> data))
       ∧ (∀ name, name ∉ todo → d !! name = acc !! name).
Proof.
  intros Hnd Hsub Hlong. revert acc Hsub.
  induction todo as [|name todo IH]; intros acc Hsub.
  - exists acc. split; [done|]. split; [|done].
    intros i name _ Hin. by apply not_elem_of_nil in Hin.
  - assert (name ∈ names) as Hin by (apply Hsub; left).
    apply list_elem_of_lookup in Hin as [i0 Hi0].
    cbn [Part000.outer_loop].
    rewrite (index_NoDup names i0 name Hnd Hi0), bind_Ok, inner_loop_columns.
    rewrite bool_decide_eq_true_2, bind_Ok.
    2:{ eapply Forall_impl; [exact Hlong|]. intros r Hr. simpl in *.
        apply lookup_lt_Some in Hi0. lia. }
    destruct (IH (<[name:=[] ++ (field i0 <$> data)]> acc))
      as (d & Hd & Hcols & Hrest).
    { intros x Hx. apply Hsub. by right. }
    exists d. split; [done|]. split.
    + intros i name' Hi Hin'.
      destruct (decide (name' ∈ todo)) as [Htodo|Htodo]; [by apply Hcols|].
      apply elem_of_cons in Hin' as [->|?]; [|done].
      rewrite (Hrest name Htodo), lookup_insert_eq.
      by rewrite (NoDup_lookup names i i0 name Hnd Hi Hi0).
    + intros name' Hnot. apply not_elem_of_cons in Hnot as [Hne Hnot].
      by rewrite (Hrest name' Hnot), lookup_insert_ne.
Qed.

Lemma outer_loop_short_row (names todo : list string)
    (data : list (list pyval)) (acc : gmap string (list pyval))
    (i : nat) (name : string) (row : list pyval) :
  NoDup names → todo ⊆ names →
  name ∈ todo → names !! i = Some name →
  row ∈ data → (length row ≤ i)%nat →
  Part000.outer_loop names data todo acc = Raise IndexError.
Proof.
  intros Hnd Hsub Hin Hi Hrow Hshort. revert acc Hsub Hin.
  induction todo as [|name0 todo IH]; intros acc Hsub Hin.
  - by apply not_elem_of_nil in Hin.
  - assert (name0 ∈ names) as Hin0 by (apply Hsub; left).
    apply list_elem_of_lookup in Hin0 as [i0 Hi0].
    cbn [Part000.outer_loop].
    rewrite (index_NoDup names i0 name0 Hnd Hi0), bind_Ok, inner_loop_columns.
    case_bool_decide as Hall; [|done]. rewrite bind_Ok.
    apply IH; [intros x Hx; apply Hsub; by right|].
    apply elem_of_cons in Hin as [->|?]; [|done].
    rewrite (NoDup_lookup names i i0 name0 Hnd Hi Hi0) in Hshort.
    rewrite Forall_forall in Hall. specialize (Hall row Hrow). lia.
Qed.

Lemma afx_dict_columns (names : list string) (data : list (list pyval)) :
  NoDup names →
  Forall (λ row, length names ≤ length row)%nat data →
  ∃ d, Part000.afx_dict names data = Ok d
       ∧ (∀ i name, names !! i = Some name →
                    d !! name = Some (field i <$> data))
       ∧ (∀ name, name ∉ names → d !! name = None).
Proof.
  intros Hnd Hlong.
  destruct (outer_loop_columns names names data ∅ Hnd) as (d & Hd & Hcols & Hrest);
    [done..|].
  exists d. split; [done|]. split.
  - intros i name Hi. apply (Hcols i name Hi). by eapply list_elem_of_lookup_2.
  - intros name Hnot. by rewrite (Hrest name Hnot).
Qed.

(** C8, amended: for pairwise distinct column names, the column loop of the
    second notebook fails, with an [IndexError] that carries no row index,
    whenever some row is shorter than the list of column names, and
    otherwise succeeds with one column per name that holds the cell of every
    row in row order, nothing sorted, dropped or merged. An absent date is
    not looked at. *)
Theorem load_rejects_short_rows_only (names : list string)
    (data : list (list pyval)) :
  NoDup names →
  (Exists (λ row, length row < length names)%nat data →
   Part000.afx_dict names data = Raise IndexError) ∧
  (Forall (λ row, length names ≤ length row)%nat data →
   ∃ d, Part000.afx_dict names data = Ok d
        ∧ (∀ i name, names !! i = Some name →
                     d !! name = Some (field i <$> data))
        ∧ (∀ name, name ∉ names → d !! name = None)).
Proof.
  intros Hnd. split; [|by apply afx_dict_columns].
  intros Hex. apply Exists_exists in Hex as (row & Hrow & Hshort).
  destruct (lookup_lt_is_Some_2 names (length row) Hshort) as [name Hname].
  apply (outer_loop_short_row names names data ∅ (length row) name row);
    try done.
  by eapply list_elem_of_lookup_2.
Qed.

Lemma load_rejects_short_rows_only_witness :
  Part000.afx_dict column_names
    [row (num 1) (num 3) (num 1) (num 2) (num 10); [PyStr "2017-01-03"; num 2]]
  = Raise IndexError.
Proof.
  apply (load_rejects_short_rows_only column_names).
  - by_evaluation.
  - right. left. simpl. lia.
Defined.

(** The counterexample to C8 as stated: a row whose date is absent is
    loaded; a short row is reported by the same bare [IndexError] whatever
    its position; and under a repeated column name a row shorter than the
    list of names is loaded. *)
Lemma load_accepts_absent_date :
  (field 0 (PyNone :: replicate 10 (num 1)) = PyNone ∧
   ∃ d, Part000.afx_dict column_names [PyNone :: replicate 10 (num 1)] = Ok d
        ∧ d !! "Date"%string = Some [PyNone])
  ∧ Part000.afx_dict column_names
      [[PyStr "2017-01-03"; num 2]; row (num 1) (num 3) (num 1) (num 2) (num 10)]
    = Part000.afx_dict column_names
        [row (num 1) (num 3) (num 1) (num 2) (num 10); [PyStr "2017-01-03"; num 2]]
  ∧ Part000.afx_dict ["Open"; "Open"]%string [[num 5]]
    = Ok {[ "Open"%string := [num 5] ]}.
Proof.
  split; [split; [reflexivity|]|split; [reflexivity|by_evaluation]].
  destruct (afx_dict_columns column_names [PyNone :: replicate 10 (num 1)])
    as (d & Hd & Hcols & _).
  - by_evaluation.
  - repeat constructor.
  - exists d. split; [done|]. by rewrite (Hcols 0%nat "Date"%string).
Qed.

(** ** Reordering the columns of the payload *)

Lemma reorder_lookup {A} (p : list nat) (l : list A) (j : nat) :
  Forall (λ i, i < length l)%nat p →
  reorder p l !! j = p !! j ≫= (l !!.).
Proof.
  intros Hp. revert j. induction Hp as [|i p Hi _ IH]; intros j; [done|].
  unfold reorder in *. cbn [omap list_omap].
  destruct (lookup_lt_is_Some_2 l i Hi) as [x Hx]. rewrite Hx.
  destruct j as [|j]; simpl; [done|]. apply IH.
Qed.

Lemma reorder_seq_from {A} (pre l : list A) :
  reorder (seq (length pre) (length l)) (pre ++ l) = l.
Proof.
  revert pre. induction l as [|x l IH]; intros pre; [done|].
  unfold reorder in *. cbn [length seq omap list_omap].
  rewrite lookup_app_r, Nat.sub_diag by lia. simpl. f_equal.
  specialize (IH (pre ++ [x])).
  by rewrite length_app, Nat.add_1_r, <- app_assoc in IH.
Qed.

Lemma reorder_Permutation {A} (p : list nat) (l : list A) :
  p ≡ₚ seq 0 (length l) → reorder p l ≡ₚ l.
Proof.
  intros Hp. trans (reorder (seq 0 (length l)) l).
  - unfold reorder. by rewrite Hp.
  - pose proof (reorder_seq_from [] l) as Hid. simpl in Hid. by rewrite Hid.
Qed.

Lemma permutation_in_range (p : list nat) (n : nat) :
  p ≡ₚ seq 0 n → Forall (λ i, i < n)%nat p.
Proof.
  intros Hp. rewrite Hp. apply Forall_forall. intros i Hi.
  apply elem_of_seq in Hi. lia.
Qed.

Lemma afx_dict_reorder (names : list string) (data : list (list pyval))
    (p : list nat) :
  NoDup names →
  Forall (λ row, length row = length names) data →
  p ≡ₚ seq 0 (length names) →
  Part000.afx_dict (reorder p names) (reorder p <$> data)
  = Part000.afx_dict names data.
Proof.
  intros Hnd Hrect Hp.
  pose proof (reorder_Permutation p names Hp) as Hnames.
  pose proof (permutation_in_range p _ Hp) as Hrange.
  destruct (afx_dict_columns names data Hnd) as (d & -> & Hcols & Hrest).
  { eapply Forall_impl; [exact Hrect|]. intros r Hr. simpl in *. lia. }
  destruct (afx_dict_columns (reorder p names) (reorder p <$> data))
    as (d' & -> & Hcols' & Hrest').
  { by rewrite Hnames. }
  { apply Forall_fmap. eapply Forall_impl; [exact Hrect|]. intros r Hr.
    simpl in *. rewrite Hnames, reorder_Permutation; [lia|]. by rewrite Hr. }
  f_equal. apply map_eq. intros name.
  destruct (decide (name ∈ names)) as [Hin|Hnot].
  - apply list_elem_of_lookup in Hin as [i Hi].
    assert (name ∈ reorder p names) as Hin' .
    { rewrite Hnames. by eapply list_elem_of_lookup_2. }
    apply list_elem_of_lookup in Hin' as [j Hj].
    rewrite (Hcols' j name Hj), (Hcols i name Hi). f_equal.
    rewrite reorder_lookup in Hj by done.
    destruct (p !! j) as [i'|] eqn:Hpj; [|done]. simpl in Hj.
    rewrite (NoDup_lookup names i' i name Hnd Hj Hi) in Hpj.
    rewrite <- list_fmap_compose. apply Forall_fmap_ext_1.
    eapply Forall_impl; [exact Hrect|]. intros r Hr. simpl in *.
    unfold field. rewrite reorder_lookup by (by rewrite Hr).
    by rewrite Hpj.
  - rewrite (Hrest name Hnot). apply Hrest'. by rewrite Hnames.
Qed.

(** ** The positions read by the main notebook *)

Lemma comprehension_Forall2 {A B} (cond cond' : A → result bool)
    (elt elt' : A → result B) (l l' : list A) :
  Forall2 (λ a a', cond a = cond' a' ∧ elt a = elt' a') l l' →
  Py.comprehension cond elt l = Py.comprehension cond' elt' l'.
Proof.
  induction 1 as [|a a' l l' [Hc He] _ IH]; [done|].
  cbn [Py.comprehension]. by rewrite Hc, He, IH.
Qed.

Lemma getitem_same_position (r r' : list pyval) (k : nat) :
  r !! k = r' !! k → Py.getitem r (Z.of_nat k) = Py.getitem r' (Z.of_nat k).
Proof. intros H. by rewrite !getitem_nat, H. Qed.

Lemma notebook_reads_fixed_positions (data data' : list (list pyval)) :
  Forall2 same_read_positions data data' →
  Notebook.opens data = Notebook.opens data' ∧
  Notebook.daily_changes data = Notebook.daily_changes data' ∧
  Notebook.closes data = Notebook.closes data' ∧
  Notebook.traded_volume data = Notebook.traded_volume data'.
Proof.
  intros Hsame.
  assert (∀ k : nat, k ∈ [1; 2; 3; 4; 6]%nat →
          Forall2 (λ r r', Py.getitem r (Z.of_nat k) = Py.getitem r' (Z.of_nat k))
            data data') as Hget.
  { intros k Hk. eapply Forall2_impl; [exact Hsame|].
    intros r r' Hr. apply getitem_same_position. by apply Hr. }
  repeat split; apply comprehension_Forall2.
  - eapply Forall2_impl; [apply (Hget 1%nat); set_solver|].
    intros r r' Hr. change (Py.getitem r 1 = Py.getitem r' 1) in Hr.
    by rewrite Hr.
  - pose proof (Hget 2%nat ltac:(set_solver)) as H2.
    pose proof (Hget 3%nat ltac:(set_solver)) as H3.
    clear Hget Hsame. induction H2 as [|r r' l l' Hr _ IH]; [done|].
    apply Forall2_cons in H3 as [Hr3 H3]. constructor; [|by apply IH].
    change (Py.getitem r 2 = Py.getitem r' 2) in Hr.
    change (Py.getitem r 3 = Py.getitem r' 3) in Hr3.
    by rewrite Hr, Hr3.
  - eapply Forall2_impl; [apply (Hget 4%nat); set_solver|].
    intros r r' Hr. change (Py.getitem r 4 = Py.getitem r' 4) in Hr.
    by rewrite Hr.
  - eapply Forall2_impl; [apply (Hget 6%nat); set_solver|].
    intros r r' Hr. change (Py.getitem r 6 = Py.getitem r' 6) in Hr.
    by rewrite Hr.
Qed.

(** C2, amended: the second notebook resolves every column by its name: for
    a payload whose column names are pairwise distinct and whose rows have
    one entry per column name, permuting the column names and the entries
    of every row accordingly leaves [afx_dict] unchanged, and with it the
    five statistics computed from it. The main notebook reads fixed
    positions: its five statistics are determined by the cells at positions
    1, 2, 3, 4 and 6 of the rows, whatever the column names. *)
Theorem columns_resolved_by_name :
  (∀ (names : list string) (data : list (list pyval)) (p : list nat),
     NoDup names →
     Forall (λ row, length row = length names) data →
     p ≡ₚ seq 0 (length names) →
     Part000.afx_dict (reorder p names) (reorder p <$> data)
     = Part000.afx_dict names data ∧
     (Part000.afx_dict (reorder p names) (reorder p <$> data)
        ≫= Part000.open_extrema)
     = (Part000.afx_dict names data ≫= Part000.open_extrema) ∧
     (Part000.afx_dict (reorder p names) (reorder p <$> data)
        ≫= Part000.largest_change)
     = (Part000.afx_dict names data ≫= Part000.largest_change) ∧
     (Part000.afx_dict (reorder p names) (reorder p <$> data)
        ≫= Part000.largest_overnight_change)
     = (Part000.afx_dict names data ≫= Part000.largest_overnight_change) ∧
     (Part000.afx_dict (reorder p names) (reorder p <$> data)
        ≫= Part000.avg_volume)
     = (Part000.afx_dict names data ≫= Part000.avg_volume) ∧
     (Part000.afx_dict (reorder p names) (reorder p <$> data)
        ≫= Part000.median_volume)
     = (Part000.afx_dict names data ≫= Part000.median_volume))
  ∧ (∀ data data' : list (list pyval),
       Forall2 same_read_positions data data' →
       Notebook.open_extrema data = Notebook.open_extrema data' ∧
       Notebook.largest_change data = Notebook.largest_change data' ∧
       Notebook.largest_overnight_change data
       = Notebook.largest_overnight_change data' ∧
       Notebook.avg_volume data = Notebook.avg_volume data' ∧
       Notebook.median_volume data = Notebook.median_volume data').
Proof.
  split.
  - intros names data p Hnd Hrect Hp.
    by rewrite (afx_dict_reorder names data p Hnd Hrect Hp).
  - intros data data' Hsame.
    destruct (notebook_reads_fixed_positions data data' Hsame)
      as (Ho & Hd & Hc & Hv).
    unfold Notebook.open_extrema, Notebook.largest_change,
      Notebook.largest_overnight_change, Notebook.avg_volume,
      Notebook.median_volume.
    by rewrite Ho, Hd, Hc, Hv.
Qed.

Lemma columns_resolved_by_name_witness :
  Part000.afx_dict
    (reorder [1; 0; 2; 3; 4; 5; 6; 7; 8; 9; 10]%nat column_names)
    (reorder [1; 0; 2; 3; 4; 5; 6; 7; 8; 9; 10]%nat
       <$> [row (num 5) (num 9) (num 4) (num 6) (num 10);
            row (num 7) (num 8) (num 2) (num 3) (num 30)])
  = Part000.afx_dict column_names
      [row (num 5) (num 9) (num 4) (num 6) (num 10);
       row (num 7) (num 8) (num 2) (num 3) (num 30)].
Proof.
  apply (proj1 columns_resolved_by_name column_names
           [row (num 5) (num 9) (num 4) (num 6) (num 10);
            row (num 7) (num 8) (num 2) (num 3) (num 30)]
           [1; 0; 2; 3; 4; 5; 6; 7; 8; 9; 10]%nat).
  - by_evaluation.
  - repeat constructor.
  - apply perm_swap.
Defined.

(** The counterexample to C2 as stated: the main notebook reads the open
    at position 1 whatever the column names say, so exchanging the open and
    the high column exchanges the values it reports; and in the second
    notebook a repeated column name is resolved to its first column, so a
    permutation that exchanges the two columns changes [afx_dict]. *)
Lemma columns_not_resolved_by_name :
  (NoDup column_names ∧
   [0; 2; 1; 3; 4; 5; 6; 7; 8; 9; 10]%nat ≡ₚ seq 0 (length column_names) ∧
   Notebook.open_extrema [row (num 5) (num 9) (num 4) (num 6) (num 10)]
   = Ok (num 5, num 5) ∧
   Notebook.open_extrema
     (reorder [0; 2; 1; 3; 4; 5; 6; 7; 8; 9; 10]%nat
        <$> [row (num 5) (num 9) (num 4) (num 6) (num 10)])
   = Ok (num 9, num 9))
  ∧ ([1; 0]%nat ≡ₚ seq 0 2 ∧
     Part000.afx_dict (reorder [1; 0]%nat ["Open"; "Open"]%string)
       (reorder [1; 0]%nat <$> [[num 5; num 9]])
     ≠ Part000.afx_dict ["Open"; "Open"]%string [[num 5; num 9]]).
Proof.
  split; [split; [by_evaluation|split; [|split; by_evaluation]]|].
  - apply perm_skip, perm_swap.
  - split; [apply perm_swap|by_evaluation].
Qed.

(** ** The statistics of the second notebook on the same inputs *)

(** Cell 5 prints the signed [neg_max_overnight] for a decrease. *)
Example part000_decrease_is_signed :
  (Part000.afx_dict column_names
     (series_of_closes [num 100; num 102; num 99])
     ≫= Part000.largest_overnight_change)
  = Ok (Decrease (num (-3))).
Proof. by_evaluation. Qed.

(** Cell 5 raises as soon as a close that is paired is null. *)
Example part000_overnight_null_raises :
  (Part000.afx_dict column_names
     (series_of_closes [num 1; num 2; PyNone; num 4; num 7])
     ≫= Part000.largest_overnight_change)
  = Raise TypeError.
Proof. by_evaluation. Qed.

(** Cell 6 passes the whole column to [statistics.mean]. *)
Example part000_mean_null_raises :
  (Part000.afx_dict column_names
     (series_of_volumes [num 100; PyNone; num 300])
     ≫= Part000.avg_volume)
  = Raise TypeError.
Proof. by_evaluation. Qed.

(** Cell 7 indexes with a float when the count is even. *)
Example part000_median_even_raises :
  (Part000.afx_dict column_names
     (series_of_volumes [num 10; num 20; num 30; num 40])
     ≫= Part000.median_volume)
  = Raise TypeError
  ∧ (Part000.afx_dict column_names
       (series_of_volumes [num 10; num 20; num 30])
       ≫= Part000.median_volume)
    = Ok (num 20).
Proof. split; by_evaluation. Qed.

(** Cell 4 of the second notebook has no null filter either. *)
Example part000_largest_change_null_raises :
  (Part000.afx_dict column_names
     [row (num 1) (num 3) (num 1) (num 2) (num 10);
      row (num 2) PyNone PyNone (num 2) (num 10)]
     ≫= Part000.largest_change)
  = Raise TypeError.
Proof. by_evaluation. Qed.

(** * Further properties of the two notebooks *)

(** ** Cells 3 and 4 of the main notebook on usable data *)

(** X1: on a series with at least one non-null open, cell 3 returns the
    greatest and the least of the non-null opens, and the lowest open is at
    most the highest. *)
Theorem open_extrema_greatest_least (data : list (list pyval)) :
  RecordSeries data →
  non_null 1 data ≠ [] →
  ∃ hi lo : Qc,
    Notebook.highest_open data = Ok (PyNum hi) ∧
    Notebook.lowest_open data = Ok (PyNum lo) ∧
    Notebook.open_extrema data = Ok (PyNum hi, PyNum lo) ∧
    is_maximum hi (non_null 1 data) ∧
    is_minimum lo (non_null 1 data) ∧
    (lo ≤ hi)%Qc.
Proof.
  intros Hdata Hne.
  destruct (max_nums _ Hne) as (hi & Hhi & Hmax).
  destruct (min_nums _ Hne) as (lo & Hlo & Hmin).
  exists hi, lo.
  unfold Notebook.highest_open, Notebook.lowest_open, Notebook.open_extrema.
  rewrite (notebook_opens data Hdata), !bind_Ok, Hhi, Hlo.
  repeat split; try apply Hmax; apply Hmin.
Qed.

Lemma open_extrema_greatest_least_witness :
  RecordSeries
    [row (num 5) (num 9) (num 4) (num 6) (num 10);
     row PyNone (num 8) (num 2) (num 3) (num 30);
     row (num 7) (num 8) (num 2) (num 3) (num 30)] ∧
  ∃ hi lo : Qc,
    Notebook.open_extrema
      [row (num 5) (num 9) (num 4) (num 6) (num 10);
       row PyNone (num 8) (num 2) (num 3) (num 30);
       row (num 7) (num 8) (num 2) (num 3) (num 30)]
    = Ok (PyNum hi, PyNum lo) ∧ (lo ≤ hi)%Qc.
Proof.
  split; [repeat constructor|].
  destruct (open_extrema_greatest_least
              [row (num 5) (num 9) (num 4) (num 6) (num 10);
               row PyNone (num 8) (num 2) (num 3) (num 30);
               row (num 7) (num 8) (num 2) (num 3) (num 30)])
    as (hi & lo & _ & _ & H & _ & _ & Hle).
  - repeat constructor.
  - discriminate.
  - by exists hi, lo.
Defined.

Lemma intraday_numbers (r : list pyval) :
  is_number (field 2 r) = true → is_number (field 3 r) = true →
  ∃ h l, field 2 r = PyNum h ∧ field 3 r = PyNum l
         ∧ intraday r = Some (h - l)%Qc.
Proof.
  unfold intraday.
  destruct (field 2 r) as [|h|?], (field 3 r) as [|l|?]; try discriminate.
  intros _ _. by exists h, l.
Qed.

(** X2: on a non-empty series in which every record has its high and its
    low, cell 4 returns the greatest [high - low] of the records; when no
    record has its low above its high, the result is not negative. *)
Theorem largest_change_is_greatest_range (data : list (list pyval)) :
  RecordSeries data →
  data ≠ [] →
  Forall (λ r, is_number (field 2 r) = true ∧ is_number (field 3 r) = true)
    data →
  ∃ m : Qc,
    Notebook.largest_change data = Ok (PyNum m) ∧
    is_maximum m (omap intraday data) ∧
    (Forall (λ r, ∀ h l, field 2 r = PyNum h → field 3 r = PyNum l →
                         (l ≤ h)%Qc) data →
     (0 ≤ m)%Qc).
Proof.
  intros Hdata Hne Hnum.
  assert (Forall (λ r, is_Some (intraday r)) data) as Hall.
  { eapply Forall_impl; [exact Hnum|]. intros r [H2 H3].
    destruct (intraday_numbers r H2 H3) as (h & l & _ & _ & ->). by eexists. }
  destruct (largest_change_complete data Hdata Hall Hne) as (m & Hm & Hmax).
  exists m. split; [done|]. split; [done|].
  intros Hinv. destruct Hmax as [Hin _].
  apply list_elem_of_omap in Hin as (r & Hr & Hd).
  rewrite Forall_forall in Hnum, Hinv.
  destruct (Hnum r Hr) as [H2 H3].
  destruct (intraday_numbers r H2 H3) as (h & l & Hh & Hl & Hi).
  rewrite Hi in Hd. injection Hd as <-.
  specialize (Hinv r Hr h l Hh Hl).
  apply (Qcplus_le_mono_r _ _ l).
  replace (0 + l)%Qc with l by ring. by replace (h - l + l)%Qc with h by ring.
Qed.

Lemma largest_change_is_greatest_range_witness :
  ∃ m : Qc,
    Notebook.largest_change
      [row (num 5) (num 9) (num 4) (num 6) (num 10);
       row (num 7) (num 8) (num 2) (num 3) (num 30)]
    = Ok (PyNum m) ∧ (0 ≤ m)%Qc.
Proof.
  destruct (largest_change_is_greatest_range
              [row (num 5) (num 9) (num 4) (num 6) (num 10);
               row (num 7) (num 8) (num 2) (num 3) (num 30)])
    as (m & Hm & _ & Hpos).
  - repeat constructor.
  - discriminate.
  - repeat constructor.
  - exists m. split; [done|]. apply Hpos.
    repeat constructor; intros h l Hh Hl; injection Hh as <-; injection Hl as <-;
      by_evaluation.
Defined.

(** ** Rows that are too short for the main notebook *)

Lemma getitem_short {A} (r : list A) (k : nat) :
  (length r ≤ k)%nat → Py.getitem r (Z.of_nat k) = Raise IndexError.
Proof.
  intros Hk. rewrite getitem_nat. by rewrite (lookup_ge_None_2 r k Hk).
Qed.

Lemma filtered_column_short (k : nat) (data : list (list pyval)) :
  Exists (λ r, length r ≤ k)%nat data →
  Py.comprehension
    (λ i, x ← Py.getitem i (Z.of_nat k); Ok (Py.is_not_None x))
    (λ i, Py.getitem i (Z.of_nat k)) data
  = Raise IndexError.
Proof.
  induction data as [|r data IH]; intros Hex; [by apply Exists_nil in Hex|].
  cbn [Py.comprehension]. rewrite getitem_nat.
  destruct (r !! k) as [x|] eqn:Hx; [|done].
  apply Exists_cons in Hex as [Hshort|Hex].
  { apply lookup_lt_Some in Hx. lia. }
  rewrite (IH Hex). cbn [mbind result_bind]. by destruct (Py.is_not_None x).
Qed.

Lemma column_short (k : nat) (data : list (list pyval)) :
  Exists (λ r, length r ≤ k)%nat data →
  Py.comprehension (λ _, Ok true) (λ i, Py.getitem i (Z.of_nat k)) data
  = Raise IndexError.
Proof.
  induction data as [|r data IH]; intros Hex; [by apply Exists_nil in Hex|].
  cbn [Py.comprehension]. rewrite getitem_nat.
  destruct (r !! k) as [x|] eqn:Hx; [|done].
  apply Exists_cons in Hex as [Hshort|Hex].
  { apply lookup_lt_Some in Hx. lia. }
  by rewrite (IH Hex).
Qed.

(** X3: the main notebook checks no row length: whatever the rows hold, a
    row without a position 1 makes cell 3 raise [IndexError], a row without
    a position 4 does so for cell 5, and a row without a position 6 for
    cell 6; cell 7 then finds no [traded_volume] and raises [NameError]. *)
Theorem short_row_raises_index_error (data : list (list pyval)) :
  (Exists (λ r, length r ≤ 1)%nat data →
   Notebook.open_extrema data = Raise IndexError) ∧
  (Exists (λ r, length r ≤ 4)%nat data →
   Notebook.largest_overnight_change data = Raise IndexError) ∧
  (Exists (λ r, length r ≤ 6)%nat data →
   Notebook.traded_volume data = Raise IndexError ∧
   Notebook.avg_volume data = Raise IndexError ∧
   Notebook.median_volume data = Raise NameError).
Proof.
  split; [|split].
  - intros Hex. unfold Notebook.open_extrema, Notebook.opens.
    by rewrite (filtered_column_short 1 data Hex : Py.comprehension
      (λ i, x ← Py.getitem i 1; Ok (Py.is_not_None x)) (λ i, Py.getitem i 1)
      data = _).
  - intros Hex. unfold Notebook.largest_overnight_change, Notebook.closes.
    by rewrite (column_short 4 data Hex : Py.comprehension
      (λ _, Ok true) (λ i, Py.getitem i 4) data = _).
  - intros Hex.
    assert (Notebook.traded_volume data = Raise IndexError) as Htv
      by exact (filtered_column_short 6 data Hex).
    unfold Notebook.avg_volume, Notebook.median_volume. by rewrite Htv.
Qed.

Lemma short_row_raises_index_error_witness :
  Notebook.open_extrema
    [row (num 5) (num 9) (num 4) (num 6) (num 10); [PyStr "2017-01-03"]]
  = Raise IndexError.
Proof.
  apply (short_row_raises_index_error
           [row (num 5) (num 9) (num 4) (num 6) (num 10); [PyStr "2017-01-03"]]).
  right. left. simpl. lia.
Defined.

(** ** The overnight changes of the main notebook *)

Lemma deltas_after_numbers_length (p : Qc) (closes : list pyval) :
  Forall (λ v, is_number v = true) closes →
  length (deltas_after (Some (PyNum p)) closes) = length closes.
Proof.
  intros Hnum. revert p.
  induction Hnum as [|y closes Hy _ IH]; intros p; [done|].
  destruct y as [|c|?]; try done. cbn [deltas_after app length].
  by rewrite IH.
Qed.

(** X4: on a series of closes that are all numbers, the comprehension of
    cell 5 of the main notebook does not raise and makes exactly one delta
    per record after the first. *)
Theorem overnight_changes_one_delta_per_record (closes : list pyval) :
  Forall (λ v, is_number v = true) closes →
  ∃ deltas : list pyval,
    Notebook.overnight_changes closes = Ok deltas ∧
    length deltas = (length closes - 1)%nat ∧
    Forall (λ v, is_number v = true) deltas.
Proof.
  intros Hnum.
  rewrite (notebook_overnight_changes closes (is_number_numeric _ Hnum)).
  eexists. split; [done|]. split.
  - rewrite length_fmap. destruct closes as [|x closes]; [done|].
    apply Forall_cons in Hnum as [Hx Hnum]. destruct x as [|q|?]; try done.
    change (length (deltas_after (Some (PyNum q)) closes)
            = (S (length closes) - 1)%nat).
    rewrite (deltas_after_numbers_length q closes Hnum). lia.
  - apply Forall_fmap. by apply Forall_true.
Qed.

Lemma overnight_changes_one_delta_per_record_witness :
  ∃ deltas : list pyval,
    Notebook.overnight_changes [num 100; num 102; num 102; num 99] = Ok deltas ∧
    length deltas = 3%nat.
Proof.
  destruct (overnight_changes_one_delta_per_record
              [num 100; num 102; num 102; num 99]) as (ds & Hds & Hlen & _).
  - repeat constructor.
  - by exists ds.
Defined.

(** X5: a series of fewer than two records has no adjacent pair: cell 5 of
    the main notebook fails on it, with the [ValueError] of [max] on an
    empty list. *)
Theorem overnight_needs_two_records (data : list (list pyval)) :
  RecordSeries data →
  (length data ≤ 1)%nat →
  Notebook.largest_overnight_change data = Raise ValueError.
Proof.
  intros Hdata Hlen.
  rewrite (notebook_largest_overnight_change data Hdata).
  destruct data as [|r [|r' data]]; [done| |simpl in Hlen; lia].
  unfold close_column, adjacent_close_deltas. simpl.
  by destruct (field 4 r).
Qed.

Lemma overnight_needs_two_records_witness :
  Notebook.largest_overnight_change
    [row (num 5) (num 9) (num 4) (num 6) (num 10)]
  = Raise ValueError.
Proof.
  apply overnight_needs_two_records.
  - repeat constructor.
  - simpl. lia.
Defined.

Lemma direction_decrease_negative (pos neg : Qc) :
  (neg ≤ pos)%Qc → (pos < Qcabs neg)%Qc → (neg < 0)%Qc.
Proof.
  intros Hle Hlt. apply Qcnot_le_lt. intros Hpos.
  rewrite (Qcabs_pos neg Hpos) in Hlt.
  by apply (Qclt_not_le _ _ Hlt).
Qed.

Lemma abs_le_of_bounds (d lo hi m : Qc) :
  (lo ≤ d)%Qc → (d ≤ hi)%Qc → (- m ≤ lo)%Qc → (hi ≤ m)%Qc →
  (Qcabs d ≤ m)%Qc.
Proof.
  intros H1 H2 H3 H4. apply Qcabs_Qcle_condition. split.
  - by apply Qcle_trans with lo.
  - by apply Qcle_trans with hi.
Qed.

(** X6: on a series with at least one adjacent pair of non-null closes, the
    amount cell 5 of the main notebook reports is the largest absolute value
    of an adjacent close delta, and the direction is the sign of a delta
    that reaches it: an increase of [m] when [m] is a delta, a decrease of
    [m] when [-m] is one. *)
Theorem overnight_magnitude_is_largest_absolute (data : list (list pyval)) :
  RecordSeries data →
  adjacent_close_deltas (close_column data) ≠ [] →
  ∃ m : Qc,
    ((Notebook.largest_overnight_change data = Ok (Increase (PyNum m)) ∧
      m ∈ adjacent_close_deltas (close_column data)) ∨
     (Notebook.largest_overnight_change data = Ok (Decrease (PyNum m)) ∧
      (- m)%Qc ∈ adjacent_close_deltas (close_column data))) ∧
    ∀ d, d ∈ adjacent_close_deltas (close_column data) → (Qcabs d ≤ m)%Qc.
Proof.
  intros Hdata Hne.
  destruct (notebook_direction_nums _ Hne)
    as (pos & neg & [Hpin Hub] & [Hnin Hlb] & Hdir).
  rewrite (notebook_largest_overnight_change data Hdata), Hdir.
  pose proof (Hub neg Hnin) as Hnp.
  case_bool_decide as Hlt.
  - pose proof (direction_decrease_negative pos neg Hnp Hlt) as Hneg.
    assert (Qcabs neg = (- neg)%Qc) as Habs
      by (by apply Qcabs_neg, Qclt_le_weak).
    exists (Qcabs neg). split.
    + right. split; [done|]. by rewrite Habs, Qcopp_involutive.
    + intros d Hd. apply (abs_le_of_bounds d neg pos).
      * by apply Hlb.
      * by apply Hub.
      * rewrite Habs, Qcopp_involutive. apply Qcle_refl.
      * by apply Qclt_le_weak.
  - apply Qcnot_lt_le in Hlt. exists pos. split; [by left|].
    intros d Hd. apply (abs_le_of_bounds d neg pos).
    + by apply Hlb.
    + by apply Hub.
    + apply Qcle_trans with (- Qcabs neg)%Qc.
      * by apply Qcopp_le_compat.
      * by apply (Qcabs_Qcle_condition neg (Qcabs neg)), Qcle_refl.
    + apply Qcle_refl.
Qed.

Lemma overnight_magnitude_is_largest_absolute_witness :
  ∃ m : Qc,
    ∀ d, d ∈ adjacent_close_deltas
               (close_column (series_of_closes [num 100; num 102; num 99])) →
         (Qcabs d ≤ m)%Qc.
Proof.
  destruct (overnight_magnitude_is_largest_absolute
              (series_of_closes [num 100; num 102; num 99]))
    as (m & _ & H).
  - repeat constructor.
  - discriminate.
  - by exists m.
Defined.

(** ** The dictionary of columns under repeated column names *)

Lemma first_occurrence_exists `{EqDecision A} (x : A) (l : list A) :
  x ∈ l → ∃ i, first_occurrence x l i.
Proof.
  induction l as [|y l IH]; intros Hin; [by apply not_elem_of_nil in Hin|].
  destruct (decide (y = x)) as [->|Hne].
  - exists 0%nat. split; [done|]. intros j Hj. lia.
  - apply elem_of_cons in Hin as [->|Hin]; [done|].
    destruct (IH Hin) as (i & Hi & Hfirst). exists (S i). split; [done|].
    intros [|j] Hj; simpl; [congruence|]. apply Hfirst. lia.
Qed.

Lemma first_occurrence_unique {A} (x : A) (l : list A) (i j : nat) :
  first_occurrence x l i → first_occurrence x l j → i = j.
Proof.
  intros [Hi Hbi] [Hj Hbj].
  destruct (Nat.lt_trichotomy i j) as [Hlt|[->|Hlt]]; [|done|].
  - by destruct (Hbj i Hlt).
  - by destruct (Hbi j Hlt).
Qed.

Lemma index_first_occurrence `{EqDecision A} (x : A) (l : list A) (i : nat) :
  first_occurrence x l i → Py.index x l = Ok (Z.of_nat i).
Proof.
  revert i. induction l as [|y l IH]; intros i [Hi Hfirst]; [done|].
  cbn [Py.index]. destruct i as [|i]; simpl in Hi.
  - injection Hi as ->. by rewrite decide_True.
  - rewrite decide_False.
    + rewrite (IH i), bind_Ok; [f_equal; lia|]. split; [done|].
      intros j Hj. apply (Hfirst (S j)). lia.
    + intros ->. by apply (Hfirst 0%nat); [lia|].
Qed.

Lemma outer_loop_first_columns (names todo : list string)
    (data : list (list pyval)) (acc : gmap string (list pyval)) :
  todo ⊆ names →
  Forall (λ row, length names ≤ length row)%nat data →
  ∃ d, Part000.outer_loop names data todo acc = Ok d
       ∧ (∀ i name, first_occurrence name names i → name ∈ todo →
                    d !! name = Some (field i <$> data))
       ∧ (∀ name, name ∉ todo → d !! name = acc !! name).
Proof.
  intros Hsub Hlong. revert acc Hsub.
  induction todo as [|name todo IH]; intros acc Hsub.
  - exists acc. split; [done|]. split; [|done].
    intros i name _ Hin. by apply not_elem_of_nil in Hin.
  - assert (name ∈ names) as Hin by (apply Hsub; left).
    destruct (first_occurrence_exists name names Hin) as [i0 Hi0].
    cbn [Part000.outer_loop].
    rewrite (index_first_occurrence name names i0 Hi0), bind_Ok.
    rewrite inner_loop_columns, bool_decide_eq_true_2, bind_Ok.
    2:{ eapply Forall_impl; [exact Hlong|]. intros r Hr. simpl in *.
        destruct Hi0 as [Hi0 _]. apply lookup_lt_Some in Hi0. lia. }
    destruct (IH (<[name:=[] ++ (field i0 <$> data)]> acc))
      as (d & Hd & Hcols & Hrest).
    { intros x Hx. apply Hsub. by right. }
    exists d. split; [done|]. split.
    + intros i name' Hi Hin'.
      destruct (decide (name' ∈ todo)) as [Htodo|Htodo]; [by apply Hcols|].
      apply elem_of_cons in Hin' as [->|?]; [|done].
      rewrite (Hrest name Htodo), lookup_insert_eq.
      by rewrite (first_occurrence_unique name names i i0 Hi Hi0).
    + intros name' Hnot. apply not_elem_of_cons in Hnot as [Hne Hnot].
      by rewrite (Hrest name' Hnot), lookup_insert_ne.
Qed.

Lemma afx_dict_first_columns (names : list string)
    (data : list (list pyval)) :
  Forall (λ row, length names ≤ length row)%nat data →
  ∃ d, Part000.afx_dict names data = Ok d
       ∧ (∀ i name, first_occurrence name names i →
                    d !! name = Some (field i <$> data))
       ∧ (∀ name, name ∉ names → d !! name = None).
Proof.
  intros Hlong.
  destruct (outer_loop_first_columns names names data ∅)
    as (d & Hd & Hcols & Hrest); [done..|].
  exists d. split; [done|]. split.
  - intros i name Hi. apply (Hcols i name Hi).
    destruct Hi as [Hi _]. by eapply list_elem_of_lookup_2.
  - intros name Hnot. by rewrite (Hrest name Hnot).
Qed.

(** X7: when every row has at least as many entries as there are column
    names, the column loop of the second notebook succeeds whether or not
    names repeat: the keys of [afx_dict] are the column names, a name is
    bound to the column at its first position in [names], and every column
    has one entry per row. *)
Theorem afx_dict_first_column_wins (names : list string)
    (data : list (list pyval)) :
  Forall (λ row, length names ≤ length row)%nat data →
  ∃ d, Part000.afx_dict names data = Ok d
       ∧ (∀ i name, first_occurrence name names i →
                    d !! name = Some (field i <$> data))
       ∧ (∀ name, name ∈ names ↔ is_Some (d !! name))
       ∧ (∀ name col, d !! name = Some col → length col = length data).
Proof.
  intros Hlong.
  destruct (afx_dict_first_columns names data Hlong) as (d & Hd & Hcols & Hrest).
  exists d. split; [done|]. split; [done|].
  assert (∀ name, name ∈ names ↔ is_Some (d !! name)) as Hkeys.
  { intros name. split.
    - intros Hin. destruct (first_occurrence_exists name names Hin) as [i Hi].
      rewrite (Hcols i name Hi). by eexists.
    - intros [col Hcol]. destruct (decide (name ∈ names)) as [|Hnot]; [done|].
      by rewrite (Hrest name Hnot) in Hcol. }
  split; [done|].
  intros name col Hcol.
  assert (name ∈ names) as Hin by (apply Hkeys; by eexists).
  destruct (first_occurrence_exists name names Hin) as [i Hi].
  rewrite (Hcols i name Hi) in Hcol. injection Hcol as <-.
  apply length_fmap.
Qed.

Lemma afx_dict_first_column_wins_witness :
  ∃ d, Part000.afx_dict ["Open"; "High"; "Open"]%string
         [[num 5; num 9; num 7]; [num 6; num 8; num 4]] = Ok d
       ∧ d !! "Open"%string = Some [num 5; num 6].
Proof.
  destruct (afx_dict_first_column_wins ["Open"; "High"; "Open"]%string
              [[num 5; num 9; num 7]; [num 6; num 8; num 4]])
    as (d & Hd & Hcols & _).
  - repeat constructor.
  - exists d. split; [done|]. apply (Hcols 0%nat). split; [done|].
    intros j Hj. lia.
Defined.

(** X8: a statistic of the second notebook whose column name is not among
    the column names of the payload fails with [KeyError]: cell 3 without
    ["Open"], cell 4 without ["High"] or without ["Low"], cell 5 without
    ["Close"], cells 6 and 7 without ["Traded Volume"]. *)
Theorem missing_column_raises_key_error (names : list string)
    (data : list (list pyval)) :
  Forall (λ row, length names ≤ length row)%nat data →
  ("Open"%string ∉ names →
   (Part000.afx_dict names data ≫= Part000.open_extrema) = Raise KeyError) ∧
  ("High"%string ∉ names ∨ "Low"%string ∉ names →
   (Part000.afx_dict names data ≫= Part000.largest_change) = Raise KeyError) ∧
  ("Close"%string ∉ names →
   (Part000.afx_dict names data ≫= Part000.largest_overnight_change)
   = Raise KeyError) ∧
  ("Traded Volume"%string ∉ names →
   (Part000.afx_dict names data ≫= Part000.avg_volume) = Raise KeyError ∧
   (Part000.afx_dict names data ≫= Part000.median_volume) = Raise KeyError).
Proof.
  intros Hlong.
  destruct (afx_dict_first_columns names data Hlong) as (d & -> & _ & Hrest).
  rewrite !bind_Ok. split; [|split; [|split]].
  - intros Hnot. unfold Part000.open_extrema, Part000.highest_open,
      Py.dict_get. by rewrite (Hrest _ Hnot).
  - unfold Part000.largest_change, Part000.daily_changes, Py.dict_get.
    intros [Hnot|Hnot]; rewrite (Hrest _ Hnot); [done|].
    by destruct (d !! "High"%string).
  - intros Hnot. unfold Part000.largest_overnight_change, Py.dict_get.
    by rewrite (Hrest _ Hnot).
  - intros Hnot. unfold Part000.avg_volume, Part000.median_volume,
      Py.dict_get. by rewrite (Hrest _ Hnot).
Qed.

Lemma missing_column_raises_key_error_witness :
  (Part000.afx_dict ["Date"; "Open"]%string [[PyStr "2017-01-02"; num 5]]
     ≫= Part000.largest_overnight_change)
  = Raise KeyError.
Proof.
  apply (missing_column_raises_key_error ["Date"; "Open"]%string
           [[PyStr "2017-01-02"; num 5]]).
  - repeat constructor.
  - by_evaluation.
Defined.

(** ** The two notebooks on the same record series *)

Lemma DailyRecord_length (r : list pyval) :
  DailyRecord r = true → length r = 11%nat.
Proof.
  unfold DailyRecord. destruct r as [|[| |d] fields]; try discriminate.
  intros H. apply andb_prop in H as [Hlen _].
  apply bool_decide_eq_true_1 in Hlen. simpl. by rewrite Hlen.
Qed.

Lemma afx_dict_record_series (data : list (list pyval)) :
  RecordSeries data →
  ∃ d, Part000.afx_dict column_names data = Ok d
       ∧ ∀ i name, column_names !! i = Some name →
                   d !! name = Some (field i <$> data).
Proof.
  intros Hdata.
  destruct (afx_dict_columns column_names data) as (d & Hd & Hcols & _).
  - by_evaluation.
  - eapply Forall_impl; [exact Hdata|]. intros r Hr. simpl in *.
    rewrite (DailyRecord_length r Hr). simpl. lia.
  - by exists d.
Qed.

Lemma not_None_column (k : nat) (data : list (list pyval)) :
  RecordSeries data → (1 ≤ k ≤ 10)%nat →
  Part000.not_None (field k <$> data) = Ok (PyNum <$> non_null k data).
Proof.
  intros Hdata Hk. unfold Part000.not_None, non_null.
  induction data as [|r data IH]; [done|].
  apply RecordSeries_cons in Hdata as [Hr Hdata].
  destruct (DailyRecord_field r k Hr Hk) as [_ Hty].
  rewrite fmap_cons. cbn [Py.comprehension omap list_omap mbind result_bind].
  rewrite (IH Hdata).
  by destruct (field k r) as [|q|s].
Qed.

Lemma part000_daily_changes_column (data : list (list pyval)) :
  RecordSeries data →
  Py.comprehension (λ _, Ok true) (λ '(a, b), Py.sub a b)
    (zip (field 2 <$> data) (field 3 <$> data))
  = if bool_decide (Forall (λ row, is_Some (intraday row)) data)
    then Ok (PyNum <$> omap intraday data)
    else Raise TypeError.
Proof.
  intros Hdata. induction data as [|r data IH]; [done|].
  apply RecordSeries_cons in Hdata as [Hr Hdata]. specialize (IH Hdata).
  destruct (DailyRecord_field r 2 Hr) as [_ T2]; [lia|].
  destruct (DailyRecord_field r 3 Hr) as [_ T3]; [lia|].
  rewrite !fmap_cons.
  change (zip (field 2 r :: (field 2 <$> data)) (field 3 r :: (field 3 <$> data)))
    with ((field 2 r, field 3 r)
          :: zip (field 2 <$> data) (field 3 <$> data)).
  cbn [Py.comprehension mbind result_bind].
  rewrite IH, (sub_fields_intraday r T2 T3). clear IH.
  cbn [omap list_omap].
  destruct (intraday r) as [d|] eqn:E; cbn [mbind result_bind].
  - case_bool_decide as Hall.
    + rewrite bool_decide_eq_true_2; [done|]. constructor; [|done].
      rewrite E. by eexists.
    + rewrite bool_decide_eq_false_2; [done|].
      intros Hall'. by apply Forall_cons in Hall' as [_ ?].
  - rewrite bool_decide_eq_false_2; [done|].
    intros Hall. apply Forall_cons in Hall as [[? Hs] _]. congruence.
Qed.

(** X9: on every record series under the column names of the payload, the
    two notebooks compute the same open extrema and the same largest
    intraday change, errors included: looking the columns up by name and
    reading the fixed positions 1, 2 and 3 come to the same. *)
Theorem notebooks_agree_on_opens_and_ranges (data : list (list pyval)) :
  RecordSeries data →
  (Part000.afx_dict column_names data ≫= Part000.open_extrema)
  = Notebook.open_extrema data ∧
  (Part000.afx_dict column_names data ≫= Part000.largest_change)
  = Notebook.largest_change data.
Proof.
  intros Hdata.
  destruct (afx_dict_record_series data Hdata) as (d & -> & Hcols).
  rewrite !bind_Ok. split.
  - rewrite (notebook_open_extrema data Hdata).
    unfold Part000.open_extrema, Part000.highest_open, Part000.lowest_open,
      Py.dict_get.
    rewrite (Hcols 1%nat "Open"%string eq_refl), !bind_Ok.
    rewrite (not_None_column 1 data Hdata) by lia. rewrite !bind_Ok.
    by destruct (Py.max (PyNum <$> non_null 1 data)).
  - unfold Part000.largest_change, Part000.daily_changes, Py.dict_get,
      Notebook.largest_change.
    rewrite (Hcols 2%nat "High"%string eq_refl),
      (Hcols 3%nat "Low"%string eq_refl), !bind_Ok.
    by rewrite (part000_daily_changes_column data Hdata),
      (notebook_daily_changes data Hdata).
Qed.

Lemma notebooks_agree_on_opens_and_ranges_witness :
  (Part000.afx_dict column_names
     [row (num 5) (num 9) (num 4) (num 6) (num 10);
      row PyNone (num 8) (num 2) (num 3) (num 30)]
     ≫= Part000.open_extrema)
  = Notebook.open_extrema
      [row (num 5) (num 9) (num 4) (num 6) (num 10);
       row PyNone (num 8) (num 2) (num 3) (num 30)].
Proof.
  apply (notebooks_agree_on_opens_and_ranges
           [row (num 5) (num 9) (num 4) (num 6) (num 10);
            row PyNone (num 8) (num 2) (num 3) (num 30)]).
  repeat constructor.
Defined.

(** ** Mean and median of the second notebook *)

Lemma number_column (k : nat) (data : list (list pyval)) :
  Forall (λ r, is_number (field k r) = true) data →
  field k <$> data = PyNum <$> non_null k data.
Proof.
  unfold non_null. induction 1 as [|r data Hr _ IH]; [done|].
  rewrite fmap_cons, IH. cbn [omap list_omap].
  by destruct (field k r).
Qed.

Lemma exact_sum_not_number (l : list pyval) :
  Exists (λ v, is_number v = false) l → Py.exact_sum l = Raise TypeError.
Proof.
  induction l as [|x l IH]; intros Hex; [by apply Exists_nil in Hex|].
  apply Exists_cons in Hex as [Hx|Hex].
  - by destruct x.
  - cbn [Py.exact_sum]. rewrite (IH Hex). by destruct x.
Qed.

(** X10: cell 6 of the second notebook averages the whole traded-volume
    column: on a record series whose volumes are all present it returns what
    the main notebook returns, and as soon as one volume is null it raises
    [TypeError], where the main notebook leaves the null out. *)
Theorem part000_avg_volume_needs_all_volumes (data : list (list pyval)) :
  RecordSeries data →
  (Forall (λ r, is_number (field 6 r) = true) data →
   (Part000.afx_dict column_names data ≫= Part000.avg_volume)
   = Notebook.avg_volume data) ∧
  (Exists (λ r, field 6 r = PyNone) data →
   (Part000.afx_dict column_names data ≫= Part000.avg_volume)
   = Raise TypeError).
Proof.
  intros Hdata.
  destruct (afx_dict_record_series data Hdata) as (d & -> & Hcols).
  rewrite !bind_Ok. unfold Part000.avg_volume, Py.dict_get.
  rewrite (Hcols 6%nat "Traded Volume"%string eq_refl), !bind_Ok. split.
  - intros Hnum. by rewrite (notebook_avg_volume data Hdata),
      (number_column 6 data Hnum).
  - intros Hex. unfold Py.mean. rewrite length_fmap.
    case_decide as Hn.
    { destruct data; [by apply Exists_nil in Hex|simpl in Hn; lia]. }
    rewrite exact_sum_not_number; [done|].
    apply Exists_fmap. eapply Exists_impl; [exact Hex|].
    intros r Hr. simpl. by rewrite Hr.
Qed.

Lemma part000_avg_volume_needs_all_volumes_witness :
  (Part000.afx_dict column_names
     (series_of_volumes [num 100; PyNone; num 300])
     ≫= Part000.avg_volume)
  = Raise TypeError.
Proof.
  apply (part000_avg_volume_needs_all_volumes
           (series_of_volumes [num 100; PyNone; num 300])).
  - repeat constructor.
  - right. by left.
Defined.

Lemma insert_sorted_outcome (x : pyval) (l : list pyval) :
  (∃ s, Py.insert_sorted x l = Ok s) ∨ Py.insert_sorted x l = Raise TypeError.
Proof.
  induction l as [|y l IH]; [left; by eexists|].
  cbn [Py.insert_sorted].
  destruct y as [|q|t], x as [|p|u]; cbn [Py.lt mbind result_bind]; auto.
  - destruct (bool_decide (q < p)%Qc); [|left; by eexists].
    destruct IH as [[s ->]| ->]; [left; by eexists|by right].
  - destruct (String.ltb t u); [|left; by eexists].
    destruct IH as [[s ->]| ->]; [left; by eexists|by right].
Qed.

Lemma sorted_outcome (l : list pyval) :
  (∃ s, Py.sorted l = Ok s) ∨ Py.sorted l = Raise TypeError.
Proof.
  induction l as [|x l IH]; [left; by eexists|].
  cbn [Py.sorted]. destruct IH as [[s ->]| ->]; [|by right].
  apply insert_sorted_outcome.
Qed.

(** X11: cell 7 of the second notebook computes the two middle indices of
    an even count with [/], so on a traded-volume column of even length,
    the empty one included, it raises [TypeError] whatever the column
    holds; on a record series with an odd number of volumes, all present,
    it returns the median the main notebook returns. *)
Theorem part000_median_volume_odd_only :
  (∀ (afx_dict : gmap string (list pyval)) (col : list pyval),
     afx_dict !! "Traded Volume"%string = Some col →
     (length col mod 2 = 0)%nat →
     Part000.median_volume afx_dict = Raise TypeError)
  ∧ (∀ data : list (list pyval),
       RecordSeries data →
       Forall (λ r, is_number (field 6 r) = true) data →
       (length data mod 2 = 1)%nat →
       (Part000.afx_dict column_names data ≫= Part000.median_volume)
       = Notebook.median_volume data).
Proof.
  split.
  - intros d col Hcol Heven. unfold Part000.median_volume, Py.dict_get.
    rewrite Hcol, bind_Ok. cbv zeta.
    destruct (sorted_outcome col) as [[s ->]| ->]; [|done].
    rewrite bind_Ok. by rewrite decide_True.
  - intros data Hdata Hnum Hodd.
    destruct (afx_dict_record_series data Hdata) as (d & -> & Hcols).
    rewrite bind_Ok, (notebook_median_volume data Hdata).
    unfold Part000.median_volume, Py.dict_get.
    rewrite (Hcols 6%nat "Traded Volume"%string eq_refl), bind_Ok. cbv zeta.
    rewrite (number_column 6 data Hnum).
    assert (length (non_null 6 data) = length data) as Hlen.
    { rewrite <- (length_fmap PyNum), <- (number_column 6 data Hnum).
      apply length_fmap. }
    assert (non_null 6 data ≠ []) as Hne.
    { intros Hnil. rewrite Hnil in Hlen. rewrite <- Hlen in Hodd.
      discriminate. }
    rewrite (median_nums _ Hne), sorted_nums_merge_sort, bind_Ok.
    rewrite length_fmap, Hlen, decide_False by lia.
    set (s := merge_sort Qcle (non_null 6 data)).
    assert (length s = length data) as Hs.
    { unfold s. by rewrite merge_sort_Permutation. }
    unfold standard_median. cbv zeta.
    rewrite Hs, (proj2 (odd_mod_2 (length data)) Hodd).
    apply getitem_nums. rewrite Hs.
    apply Nat.div_lt; [|lia]. destruct data; [discriminate|simpl; lia].
Qed.

Lemma part000_median_volume_odd_only_witness :
  (Part000.afx_dict column_names
     (series_of_volumes [num 30; num 10; num 20])
     ≫= Part000.median_volume)
  = Notebook.median_volume (series_of_volumes [num 30; num 10; num 20]).
Proof.
  apply (proj2 part000_median_volume_odd_only
           (series_of_volumes [num 30; num 10; num 20])).
  - repeat constructor.
  - repeat constructor.
  - reflexivity.
Defined.

(** ** Cell 5 of the second notebook *)

(** X12: on a non-empty list of deltas the two notebooks choose the same
    direction; for an increase they print the same amount, and for a
    decrease the second notebook prints the negative [neg_max] itself where
    the main notebook prints its absolute value. *)
Theorem part000_direction_keeps_sign (deltas : list Qc) :
  deltas ≠ [] →
  (∃ m : Qc,
     Part000.overnight_direction (PyNum <$> deltas) = Ok (Increase (PyNum m)) ∧
     Notebook.overnight_direction (PyNum <$> deltas) = Ok (Increase (PyNum m)))
  ∨ (∃ neg_max : Qc,
       (neg_max < 0)%Qc ∧ is_minimum neg_max deltas ∧
       Part000.overnight_direction (PyNum <$> deltas)
       = Ok (Decrease (PyNum neg_max)) ∧
       Notebook.overnight_direction (PyNum <$> deltas)
       = Ok (Decrease (PyNum (- neg_max)%Qc))).
Proof.
  intros Hne.
  destruct (max_nums deltas Hne) as (pos & Hpos & Hmax).
  destruct (min_nums deltas Hne) as (neg & Hneg & Hmin).
  assert (neg ≤ pos)%Qc as Hnp by (apply Hmax, Hmin).
  unfold Part000.overnight_direction, Notebook.overnight_direction.
  rewrite Hpos, Hneg. cbn [mbind result_bind Py.abs Py.gt].
  case_bool_decide as Hlt.
  - right. exists neg.
    pose proof (direction_decrease_negative pos neg Hnp Hlt) as Hn.
    split; [done|]. split; [done|]. split; [done|].
    by rewrite (Qcabs_neg neg (Qclt_le_weak _ _ Hn)).
  - left. exists pos. split; [|done].
    apply Qcnot_lt_le in Hlt.
    rewrite Qcabs_pos; [done|].
    apply Qcle_trans with (Qcabs neg); [apply Qcabs_nonneg|done].
Qed.

Lemma part000_direction_keeps_sign_witness :
  (∃ m : Qc,
     Part000.overnight_direction (PyNum <$> [Qc_of_Z 2; Qc_of_Z (-3)])
     = Ok (Increase (PyNum m)) ∧
     Notebook.overnight_direction (PyNum <$> [Qc_of_Z 2; Qc_of_Z (-3)])
     = Ok (Increase (PyNum m)))
  ∨ (∃ neg_max : Qc,
       (neg_max < 0)%Qc ∧ is_minimum neg_max [Qc_of_Z 2; Qc_of_Z (-3)] ∧
       Part000.overnight_direction (PyNum <$> [Qc_of_Z 2; Qc_of_Z (-3)])
       = Ok (Decrease (PyNum neg_max)) ∧
       Notebook.overnight_direction (PyNum <$> [Qc_of_Z 2; Qc_of_Z (-3)])
       = Ok (Decrease (PyNum (- neg_max)%Qc))).
Proof.
  apply (part000_direction_keeps_sign [Qc_of_Z 2; Qc_of_Z (-3)]).
  discriminate.
Defined.

Lemma getitem_elem_of {A} (l : list A) (i : Z) (v : A) :
  Py.getitem l i = Ok v → v ∈ l.
Proof.
  unfold Py.getitem. destruct (_ <? 0)%Z; [done|].
  destruct (l !! _) as [x|] eqn:Hx; [|done].
  intros [= <-]. by eapply list_elem_of_lookup_2.
Qed.

Lemma part000_overnight_loop_numbers (closes items acc : list pyval) :
  items ⊆ closes →
  Forall (λ v, is_number v = true) closes →
  ∃ deltas, Part000.overnight_loop closes items acc = Ok (acc ++ deltas)
            ∧ length deltas = length items
            ∧ Forall (λ v, is_number v = true) deltas.
Proof.
  intros Hsub Hty. revert acc Hsub.
  induction items as [|item items IH]; intros acc Hsub.
  - exists []. by rewrite app_nil_r.
  - cbn [Part000.overnight_loop].
    assert (item ∈ closes) as Hin by (apply Hsub; left).
    destruct (index_elem_of item closes Hin) as (i & -> & Hi).
    rewrite bind_Ok.
    destruct (getitem_before closes i Hi) as (prev & Hprev).
    rewrite Hprev, bind_Ok.
    rewrite Forall_forall in Hty.
    pose proof (Hty item Hin) as Hitem.
    pose proof (Hty prev (getitem_elem_of _ _ _ Hprev)) as Hp.
    destruct item as [|c|?], prev as [|p|?]; try discriminate.
    cbn [Py.sub mbind result_bind].
    destruct (IH (acc ++ [PyNum (c - p)%Qc])) as (ds & -> & Hlen & Hnum).
    { intros x Hx. apply Hsub. by right. }
    exists (PyNum (c - p)%Qc :: ds). split; [by rewrite <- app_assoc|].
    split; [simpl; by rewrite Hlen|by constructor].
Qed.

(** X13: on a series of closes that are all numbers, repeated or not, the
    loop of cell 5 of the second notebook never raises and makes one delta
    per record after the first: a close is always found by
    [closes.index(item)], and [index - 1] is a position of the list, the
    last one when the index is [0]. *)
Theorem part000_overnight_total_on_numbers (closes : list pyval) :
  Forall (λ v, is_number v = true) closes →
  ∃ deltas,
    Part000.overnight_changes closes = Ok deltas ∧
    length deltas = (length closes - 1)%nat ∧
    Forall (λ v, is_number v = true) deltas.
Proof.
  intros Hty. unfold Part000.overnight_changes.
  destruct (part000_overnight_loop_numbers closes (drop 1 closes) [])
    as (ds & Hds & Hlen & Hnum); [|done|].
  - apply subseteq_drop.
  - exists ds. split; [done|]. split; [|done].
    by rewrite Hlen, length_drop.
Qed.

Lemma part000_overnight_total_on_numbers_witness :
  ∃ deltas,
    Part000.overnight_changes [num 5; num 1; num 2; num 1] = Ok deltas ∧
    length deltas = 3%nat.
Proof.
  destruct (part000_overnight_total_on_numbers [num 5; num 1; num 2; num 1])
    as (ds & Hds & Hlen & _).
  - repeat constructor.
  - by exists ds.
Defined.

(** ** The median of an odd number of volumes *)

(** X14: when the number of non-null traded volumes is odd, the median of
    cell 7 of the main notebook is one of these volumes, and so lies between
    the least and the greatest of them. *)
Theorem median_volume_odd_is_a_volume (data : list (list pyval)) :
  RecordSeries data →
  (length (non_null 6 data) mod 2 = 1)%nat →
  ∃ median : Qc,
    Notebook.median_volume data = Ok (PyNum median) ∧
    median ∈ non_null 6 data ∧
    ∀ lo hi, is_minimum lo (non_null 6 data) →
             is_maximum hi (non_null 6 data) →
             (lo ≤ median)%Qc ∧ (median ≤ hi)%Qc.
Proof.
  intros Hdata Hodd.
  assert (non_null 6 data ≠ []) as Hne by (intros Hnil; by rewrite Hnil in Hodd).
  rewrite (notebook_median_volume data Hdata), (median_nums _ Hne).
  set (s := merge_sort Qcle (non_null 6 data)).
  assert (s ≡ₚ non_null 6 data) as Hp by apply merge_sort_Permutation.
  assert (length s = length (non_null 6 data)) as Hlen by (by rewrite Hp).
  assert (standard_median s ∈ s) as Hin.
  { unfold standard_median. cbv zeta.
    rewrite Hlen, (proj2 (odd_mod_2 _) Hodd), <- Hlen.
    destruct (lookup_lt_is_Some_2 s (length s `div` 2)) as [x Hx].
    - apply Nat.div_lt; [|lia]. rewrite Hlen.
      destruct (non_null 6 data); [done|simpl; lia].
    - rewrite Hx. by eapply list_elem_of_lookup_2. }
  exists (standard_median s). split; [done|].
  assert (standard_median s ∈ non_null 6 data) as Hin'.
  { revert Hin. generalize (standard_median s). intros m Hm.
    by rewrite <- Hp. }
  split; [done|].
  intros lo hi [_ Hlo] [_ Hhi]. split; [by apply Hlo|by apply Hhi].
Qed.

Lemma median_volume_odd_is_a_volume_witness :
  ∃ median : Qc,
    Notebook.median_volume
      (series_of_volumes [num 300; PyNone; num 100; num 200])
    = Ok (PyNum median) ∧
    median ∈ [Qc_of_Z 300; Qc_of_Z 100; Qc_of_Z 200].
Proof.
  destruct (median_volume_odd_is_a_volume
              (series_of_volumes [num 300; PyNone; num 100; num 200]))
    as (m & Hm & Hin & _).
  - repeat constructor.
  - reflexivity.
  - by exists m.
Defined.

(** * What the main notebook does and the second notebook misses *)

Lemma part000_largest_overnight_series (data : list (list pyval)) :
  RecordSeries data →
  (Part000.afx_dict column_names data ≫= Part000.largest_overnight_change)
  = (d ← Part000.overnight_changes (close_column data);
     Part000.overnight_direction d).
Proof.
  intros Hdata.
  destruct (afx_dict_record_series data Hdata) as (d & -> & Hcols).
  rewrite bind_Ok. unfold Part000.largest_overnight_change, Py.dict_get.
  by rewrite (Hcols 4%nat "Close"%string eq_refl).
Qed.

Lemma directions_on_numbers (deltas : list Qc) :
  deltas ≠ [] →
  (∃ m : Qc,
     Notebook.overnight_direction (PyNum <$> deltas) = Ok (Increase (PyNum m)) ∧
     Part000.overnight_direction (PyNum <$> deltas) = Ok (Increase (PyNum m)))
  ∨ (∃ neg_max : Qc,
       (neg_max < 0)%Qc ∧ is_minimum neg_max deltas ∧
       Notebook.overnight_direction (PyNum <$> deltas)
       = Ok (Decrease (PyNum (- neg_max)%Qc)) ∧
       Part000.overnight_direction (PyNum <$> deltas)
       = Ok (Decrease (PyNum neg_max))).
Proof.
  intros Hne.
  destruct (max_nums deltas Hne) as (pos & Hpos & Hmax).
  destruct (min_nums deltas Hne) as (neg & Hneg & Hmin).
  assert (neg ≤ pos)%Qc as Hnp by (apply Hmax, Hmin).
  unfold Part000.overnight_direction, Notebook.overnight_direction.
  rewrite Hpos, Hneg. cbn [mbind result_bind Py.abs Py.gt].
  case_bool_decide as Hlt.
  - right. exists neg.
    pose proof (direction_decrease_negative pos neg Hnp Hlt) as Hn.
    split; [done|]. split; [done|]. split; [|done].
    by rewrite (Qcabs_neg neg (Qclt_le_weak _ _ Hn)).
  - left. exists pos. split; [done|].
    apply Qcnot_lt_le in Hlt.
    rewrite Qcabs_pos; [done|].
    apply Qcle_trans with (Qcabs neg); [apply Qcabs_nonneg|done].
Qed.

(** C1: on a series with at least one adjacent pair of non-null closes, cell 5
    of the main notebook takes [pos_max], the greatest, and [neg_max], the
    least of the adjacent close deltas; it reports a decrease of
    [abs(neg_max)] when [abs(neg_max) > pos_max] and an increase of [pos_max]
    otherwise, so a tie is an increase and a reported decrease is never
    negative; the closes [100, 102, 100] give an increase of 2. Cell 5 of the
    second notebook does not: on closes that are distinct numbers it chooses
    the same direction, but where the main notebook reports a decrease of
    [- neg_max] it reports the negative [neg_max]; on the closes
    [100, 102, 99] it reports a decrease of -3, the main notebook one of 3. *)
Theorem overnight_direction_policy :
  (∀ (data : list (list pyval)) (i : nat) (p c : Qc),
     RecordSeries data →
     close_column data !! i = Some (PyNum p) →
     close_column data !! S i = Some (PyNum c) →
     ∃ pos_max neg_max : Qc,
       is_maximum pos_max (adjacent_close_deltas (close_column data)) ∧
       is_minimum neg_max (adjacent_close_deltas (close_column data)) ∧
       Notebook.largest_overnight_change data
       = Ok (if bool_decide (pos_max < Qcabs neg_max)%Qc
             then Decrease (PyNum (Qcabs neg_max))
             else Increase (PyNum pos_max)) ∧
       (Qcabs neg_max = pos_max →
        Notebook.largest_overnight_change data = Ok (Increase (PyNum pos_max))) ∧
       (0 ≤ Qcabs neg_max)%Qc)
  ∧ Notebook.largest_overnight_change
      (series_of_closes [num 100; num 102; num 100])
    = Ok (Increase (num 2))
  ∧ (∀ data : list (list pyval),
       RecordSeries data →
       Forall (λ v, is_number v = true) (close_column data) →
       NoDup (close_column data) →
       adjacent_close_deltas (close_column data) ≠ [] →
       (∃ m : Qc,
          Notebook.largest_overnight_change data = Ok (Increase (PyNum m)) ∧
          (Part000.afx_dict column_names data
             ≫= Part000.largest_overnight_change)
          = Ok (Increase (PyNum m)))
       ∨ (∃ neg_max : Qc,
            (neg_max < 0)%Qc ∧
            is_minimum neg_max (adjacent_close_deltas (close_column data)) ∧
            Notebook.largest_overnight_change data
            = Ok (Decrease (PyNum (- neg_max)%Qc)) ∧
            (Part000.afx_dict column_names data
               ≫= Part000.largest_overnight_change)
            = Ok (Decrease (PyNum neg_max))))
  ∧ Notebook.largest_overnight_change
      (series_of_closes [num 100; num 102; num 99])
    = Ok (Decrease (num 3))
  ∧ (Part000.afx_dict column_names
       (series_of_closes [num 100; num 102; num 99])
       ≫= Part000.largest_overnight_change)
    = Ok (Decrease (num (-3))).
Proof.
  destruct notebook_direction_policy as [Hmain Htie].
  split; [exact Hmain|]. split; [exact Htie|].
  split; [|split; by_evaluation].
  intros data Hdata Hnum Hnd Hne.
  rewrite (notebook_largest_overnight_change data Hdata).
  rewrite (part000_largest_overnight_series data Hdata).
  rewrite (part000_overnight_changes _ Hnd Hnum), bind_Ok.
  apply (directions_on_numbers _ Hne).
Qed.

Lemma overnight_direction_policy_witness :
  RecordSeries (series_of_closes [num 100; num 102; num 99; num 96]) ∧
  ((∃ m : Qc,
      Notebook.largest_overnight_change
        (series_of_closes [num 100; num 102; num 99; num 96])
      = Ok (Increase (PyNum m)) ∧
      (Part000.afx_dict column_names
         (series_of_closes [num 100; num 102; num 99; num 96])
         ≫= Part000.largest_overnight_change)
      = Ok (Increase (PyNum m)))
   ∨ (∃ neg_max : Qc,
        (neg_max < 0)%Qc ∧
        is_minimum neg_max
          (adjacent_close_deltas
             (close_column
                (series_of_closes [num 100; num 102; num 99; num 96]))) ∧
        Notebook.largest_overnight_change
          (series_of_closes [num 100; num 102; num 99; num 96])
        = Ok (Decrease (PyNum (- neg_max)%Qc)) ∧
        (Part000.afx_dict column_names
           (series_of_closes [num 100; num 102; num 99; num 96])
           ≫= Part000.largest_overnight_change)
        = Ok (Decrease (PyNum neg_max)))).
Proof.
  split; [repeat constructor|].
  apply (proj1 (proj2 (proj2 overnight_direction_policy))
           (series_of_closes [num 100; num 102; num 99; num 96])).
  - repeat constructor.
  - repeat constructor.
  - by_evaluation.
  - discriminate.
Defined.

(** C4: in the main notebook adjacency is positional in the raw sequence of
    closes: the deltas of cell 5 are exactly the [close[i] - close[i-1]] over
    the positions [i > 0] at which both closes are non-null, in order, and a
    null close only removes the two pairs it belongs to. The loop of the
    second notebook is not positional: it raises as soon as a series of two
    or more closes holds a null, and it pairs a repeated close with the
    predecessor of its first occurrence. *)
Theorem adjacency_is_positional :
  (∀ data : list (list pyval),
     RecordSeries data →
     Notebook.closes data = Ok (close_column data) ∧
     Notebook.overnight_changes (close_column data)
     = Ok (PyNum <$> omap (close_delta_at (close_column data))
                          (seq 0 (length data))) ∧
     ∀ before after : list pyval,
       close_column data = before ++ PyNone :: after →
       ∃ d1 d2,
         Notebook.overnight_changes before = Ok d1 ∧
         Notebook.overnight_changes after = Ok d2 ∧
         Notebook.overnight_changes (close_column data) = Ok (d1 ++ d2))
  ∧ (∀ closes : list pyval,
       PyNone ∈ closes → (2 ≤ length closes)%nat →
       Part000.overnight_changes closes = Raise TypeError)
  ∧ (∀ data : list (list pyval),
       RecordSeries data →
       PyNone ∈ close_column data → (2 ≤ length data)%nat →
       (Part000.afx_dict column_names data
          ≫= Part000.largest_overnight_change)
       = Raise TypeError)
  ∧ Notebook.overnight_changes [num 1; num 2; PyNone; num 4; num 7]
    = Ok [num 1; num 3]
  ∧ Part000.overnight_changes [num 1; num 2; PyNone; num 4; num 7]
    = Raise TypeError
  ∧ Notebook.overnight_changes [num 5; num 1; num 2; num 1]
    = Ok [num (-4); num 1; num (-1)]
  ∧ Part000.overnight_changes [num 5; num 1; num 2; num 1]
    = Ok [num (-4); num 1; num (-4)].
Proof.
  split; [exact notebook_adjacency_is_positional|].
  split; [exact part000_overnight_changes_null|].
  split; [|repeat split; by_evaluation].
  intros data Hdata Hnull Hlen.
  rewrite (part000_largest_overnight_series data Hdata).
  rewrite part000_overnight_changes_null; [done..|].
  unfold close_column. by rewrite length_fmap.
Qed.

Lemma adjacency_is_positional_witness :
  RecordSeries (series_of_closes [num 1; num 2; PyNone; num 4; num 7]) ∧
  Notebook.overnight_changes [num 1; num 2; PyNone; num 4; num 7]
  = Ok (PyNum <$> omap (close_delta_at [num 1; num 2; PyNone; num 4; num 7])
                       (seq 0 5)) ∧
  (Part000.afx_dict column_names
     (series_of_closes [num 1; num 2; PyNone; num 4; num 7])
     ≫= Part000.largest_overnight_change)
  = Raise TypeError.
Proof.
  split; [repeat constructor|]. split.
  - apply (proj1 adjacency_is_positional
             (series_of_closes [num 1; num 2; PyNone; num 4; num 7])).
    repeat constructor.
  - apply (proj1 (proj2 (proj2 adjacency_is_positional))
             (series_of_closes [num 1; num 2; PyNone; num 4; num 7])).
    + repeat constructor.
    + by_evaluation.
    + simpl. lia.
Defined.

Lemma part000_median_even (afx_dict : gmap string (list pyval))
    (col : list pyval) :
  afx_dict !! "Traded Volume"%string = Some col →
  (length col mod 2 = 0)%nat →
  Part000.median_volume afx_dict = Raise TypeError.
Proof.
  intros Hcol Heven. unfold Part000.median_volume, Py.dict_get.
  rewrite Hcol, bind_Ok. cbv zeta.
  destruct (sorted_outcome col) as [[s ->]| ->]; [|done].
  rewrite bind_Ok. by rewrite decide_True.
Qed.

(** C5: on a series with at least one non-null traded volume, cell 7 of the
    main notebook returns the standard median of the non-null traded
    volumes: with these sorted ascending, the middle element of an odd count
    and the average of the two middle elements of an even count; the volumes
    [10, 20, 30] give 20 and [10, 20, 30, 40] give 25. Cell 7 of the second
    notebook does not: it indexes with a float on every column of even
    length, so it raises on [10, 20, 30, 40], and it sorts the unfiltered
    column, so it raises on [10, None, 30]. *)
Theorem median_volume_is_standard_median :
  (∀ data : list (list pyval),
     RecordSeries data →
     non_null 6 data ≠ [] →
     ∃ s : list Qc,
       s ≡ₚ non_null 6 data ∧ Sorted Qcle s ∧
       Notebook.median_volume data = Ok (PyNum (standard_median s)))
  ∧ Notebook.median_volume (series_of_volumes [num 10; num 20; num 30])
    = Ok (num 20)
  ∧ Notebook.median_volume (series_of_volumes [num 10; num 20; num 30; num 40])
    = Ok (num 25)
  ∧ (∀ (afx_dict : gmap string (list pyval)) (col : list pyval),
       afx_dict !! "Traded Volume"%string = Some col →
       (length col mod 2 = 0)%nat →
       Part000.median_volume afx_dict = Raise TypeError)
  ∧ (∀ data : list (list pyval),
       RecordSeries data →
       (length data mod 2 = 0)%nat →
       (Part000.afx_dict column_names data ≫= Part000.median_volume)
       = Raise TypeError)
  ∧ (Part000.afx_dict column_names
       (series_of_volumes [num 10; num 20; num 30; num 40])
       ≫= Part000.median_volume)
    = Raise TypeError
  ∧ (Part000.afx_dict column_names
       (series_of_volumes [num 10; PyNone; num 30])
       ≫= Part000.median_volume)
    = Raise TypeError
  ∧ Notebook.median_volume (series_of_volumes [num 10; PyNone; num 30])
    = Ok (num 20).
Proof.
  destruct notebook_median_is_standard_median as (Hmain & Hodd & Heven).
  split; [exact Hmain|]. split; [exact Hodd|]. split; [exact Heven|].
  split; [exact part000_median_even|].
  split; [|repeat split; by_evaluation].
  intros data Hdata Hlen.
  destruct (afx_dict_record_series data Hdata) as (d & -> & Hcols).
  rewrite bind_Ok.
  apply (part000_median_even d (field 6 <$> data)).
  - apply (Hcols 6%nat "Traded Volume"%string eq_refl).
  - by rewrite length_fmap.
Qed.

Lemma median_volume_is_standard_median_witness :
  RecordSeries (series_of_volumes [num 30; PyNone; num 10; num 20]) ∧
  (∃ s : list Qc,
     s ≡ₚ [Qc_of_Z 30; Qc_of_Z 10; Qc_of_Z 20] ∧ Sorted Qcle s ∧
     Notebook.median_volume (series_of_volumes [num 30; PyNone; num 10; num 20])
     = Ok (PyNum (standard_median s))) ∧
  (Part000.afx_dict column_names
     (series_of_volumes [num 30; PyNone; num 10; num 20])
     ≫= Part000.median_volume)
  = Raise TypeError.
Proof.
  split; [repeat constructor|]. split.
  - apply (proj1 median_volume_is_standard_median
             (series_of_volumes [num 30; PyNone; num 10; num 20])).
    + repeat constructor.
    + discriminate.
  - apply (proj1 (proj2 (proj2 (proj2 (proj2 median_volume_is_standard_median))))
             (series_of_volumes [num 30; PyNone; num 10; num 20])).
    + repeat constructor.
    + reflexivity.
Defined.

Lemma part000_avg_volume_null (data : list (list pyval)) :
  RecordSeries data →
  Exists (λ r, field 6 r = PyNone) data →
  (Part000.afx_dict column_names data ≫= Part000.avg_volume)
  = Raise TypeError.
Proof.
  intros Hdata Hex.
  destruct (afx_dict_record_series data Hdata) as (d & -> & Hcols).
  rewrite bind_Ok. unfold Part000.avg_volume, Py.dict_get.
  rewrite (Hcols 6%nat "Traded Volume"%string eq_refl), bind_Ok.
  unfold Py.mean. rewrite length_fmap.
  case_decide as Hn.
  { destruct data; [by apply Exists_nil in Hex|simpl in Hn; lia]. }
  rewrite exact_sum_not_number; [done|].
  apply Exists_fmap. eapply Exists_impl; [exact Hex|].
  intros r Hr. simpl. by rewrite Hr.
Qed.

(** C6: on a series with at least one non-null traded volume, cell 6 of the
    main notebook returns the arithmetic mean of exactly the non-null traded
    volumes: their sum divided by their count; nulls are neither added as
    zero nor counted, and [100, null, 300] gives 200. Cell 6 of the second
    notebook does not: it passes the unfiltered column to
    [statistics.mean] and raises as soon as a traded volume is null. *)
Theorem avg_volume_excludes_nulls :
  (∀ data : list (list pyval),
     RecordSeries data →
     non_null 6 data ≠ [] →
     Notebook.avg_volume data
     = Ok (PyNum (total (non_null 6 data)
                  / Qc_of_Z (Z.of_nat (length (non_null 6 data))))%Qc))
  ∧ Notebook.avg_volume (series_of_volumes [num 100; PyNone; num 300])
    = Ok (num 200)
  ∧ (∀ data : list (list pyval),
       RecordSeries data →
       Exists (λ r, field 6 r = PyNone) data →
       (Part000.afx_dict column_names data ≫= Part000.avg_volume)
       = Raise TypeError)
  ∧ (Part000.afx_dict column_names
       (series_of_volumes [num 100; PyNone; num 300])
       ≫= Part000.avg_volume)
    = Raise TypeError.
Proof.
  destruct notebook_avg_excludes_nulls as [Hmain Hex].
  split; [exact Hmain|]. split; [exact Hex|].
  split; [exact part000_avg_volume_null|by_evaluation].
Qed.

Lemma avg_volume_excludes_nulls_witness :
  RecordSeries (series_of_volumes [num 100; PyNone; num 300]) ∧
  Notebook.avg_volume (series_of_volumes [num 100; PyNone; num 300])
  = Ok (PyNum ((Qc_of_Z 100 + (Qc_of_Z 300 + 0)) / Qc_of_Z 2)%Qc) ∧
  (Part000.afx_dict column_names
     (series_of_volumes [num 100; PyNone; num 300])
     ≫= Part000.avg_volume)
  = Raise TypeError.
Proof.
  split; [repeat constructor|]. split.
  - apply (proj1 avg_volume_excludes_nulls
             (series_of_volumes [num 100; PyNone; num 300])).
    + repeat constructor.
    + discriminate.
  - apply (proj1 (proj2 (proj2 avg_volume_excludes_nulls))
             (series_of_volumes [num 100; PyNone; num 300])).
    + repeat constructor.
    + right. by left.
Defined.
